(** * SearchAndDelete: a shallow embedding of [src/SearchAndDelete.tsx]

    The React component keeps eleven [useState] cells and four handlers
    ([buildQuery], [handleSearch], [toggleItemSelection]/[selectAll]/
    [clearSelection], [handleDelete]).  Each handler is embedded as a function
    from the state captured by its closure to the state after all of its
    [setX] calls, together with the ordered list of calls it made to the
    outside world (the Sanity client, the console, the two optional
    callbacks).  A handler runs to its end before the next event is taken;
    an event arriving while a handler awaits the store is not part of the
    embedding.

    Conventions of the embedding:
    - JS strings are [string]; [trim] and [toLowerCase] act on the ASCII
      range and leave other bytes alone;
    - the numeric props [batchSize] and [maxResults] are integers ([Z]),
      of any sign;
    - a JS [Set<string>] is the list of its members in insertion order,
      which is the order [Array.from] and iteration observe;
    - the remote store is any state machine with a read ([fetch], and
      [fetchTypes] for the one query that lists type names) and an atomic
      multi-delete ([commit]); building a transaction
      ([client.transaction()], [transaction.delete(id)]) only queues
      mutations and is not a call to the store, and neither it nor a
      callback throws: the outer [catch] of [handleDelete], which would
      turn such a throw into a "Delete error" status, has no run in the
      embedding;
    - numbers are printed in full, as JS prints integers below 1e21;
    - the [for] loop of [handleDelete] does not terminate when
      [batchSize <= 0], so it is embedded with fuel and returns [None] when
      the fuel runs out. *)

From Stdlib Require Import String Ascii List ZArith Lia Bool Arith.
From Stdlib Require Import DecimalString.
Import ListNotations.

Local Open Scope list_scope.
Local Open Scope string_scope.

(** ** JavaScript strings *)

Module Js.

Definition dquote : ascii := Eval cbv in ascii_of_nat 34.
Definition lf : ascii := Eval cbv in ascii_of_nat 10.
Definition DQ : string := String dquote EmptyString.
Definition LF : string := String lf EmptyString.

(** White space and line terminators that [String.prototype.trim] strips
    (ASCII range): TAB, LF, VT, FF, CR, SP. *)
Definition isWhiteSpace (c : ascii) : bool :=
  let n := nat_of_ascii c in
  ((9 <=? n)%nat && (n <=? 13)%nat) || (n =? 32)%nat.

Fixpoint trimStart (s : string) : string :=
  match s with
  | EmptyString => EmptyString
  | String c s' => if isWhiteSpace c then trimStart s' else s
  end.

Fixpoint trimEnd (s : string) : string :=
  match s with
  | EmptyString => EmptyString
  | String c s' =>
      match trimEnd s' with
      | EmptyString => if isWhiteSpace c then EmptyString else String c EmptyString
      | r => String c r
      end
  end.

Definition trim (s : string) : string := trimEnd (trimStart s).

Definition lowerChar (c : ascii) : ascii :=
  let n := nat_of_ascii c in
  if ((65 <=? n)%nat && (n <=? 90)%nat) then ascii_of_nat (n + 32) else c.

Fixpoint toLowerCase (s : string) : string :=
  match s with
  | EmptyString => EmptyString
  | String c s' => String (lowerChar c) (toLowerCase s')
  end.

(** Truthiness of a string: non-empty. *)
Definition truthy (s : string) : bool :=
  match s with EmptyString => false | _ => true end.

(** Template-literal rendering of an integer-valued number. *)
Definition showZ (z : Z) : string := NilZero.string_of_int (Z.to_int z).
Definition showNat (n : nat) : string := showZ (Z.of_nat n).

(** [Array.prototype.join]. *)
Definition join (sep : string) (l : list string) : string := String.concat sep l.

(** [Array.prototype.slice(start, end)] with its relative-index rules:
    a negative index counts from the end, every index is clamped to
    [0 .. length]. *)
Definition relIndex (len k : Z) : Z :=
  if (k <? 0)%Z then Z.max (len + k) 0 else Z.min k len.

Definition slice {A} (l : list A) (start stop : Z) : list A :=
  let len := Z.of_nat (length l) in
  let k := relIndex len start in
  let final := relIndex len stop in
  firstn (Z.to_nat (final - k)) (skipn (Z.to_nat k) l).

(** What a [catch] clause can receive: an [Error] object with its message,
    or any other value. *)
Inductive Thrown : Type :=
| ErrorObject (message : string)
| NonError.

(** [error instanceof Error ? error.message : fallback]. *)
Definition messageOr (fallback : string) (e : Thrown) : string :=
  match e with
  | ErrorObject m => m
  | NonError => fallback
  end.

End Js.

(** ** JavaScript [Set<string>], in insertion order *)

Module JsSet.

Definition t := list string.

Definition empty : t := [].

Definition has (s : t) (id : string) : bool := existsb (String.eqb id) s.

Definition add (s : t) (id : string) : t :=
  if has s id then s else (s ++ [id])%list.

Definition delete (s : t) (id : string) : t :=
  filter (fun x => negb (String.eqb id x)) s.

Definition size (s : t) : nat := length s.

(** [new Set(iterable)]. *)
Definition ofList (l : list string) : t := fold_left add l empty.

(** [Array.from(set)]. *)
Definition toArray (s : t) : list string := s.

End JsSet.

(** ** Types of the component *)

Record SearchResult : Type := mkSearchResult {
  _id : string;
  _type : string;
  title : option string;
  name : option string;
  slug : option string
}.

(** Props, after defaulting.  The two callbacks are optional; the flags say
    whether the caller supplied them. *)
Record Props : Type := mkProps {
  documentTypes : list string;
  onComplete : bool;
  onError : bool;
  batchSize : Z;
  dryRun : bool;
  maxResults : Z
}.

Definition defaultProps : Props :=
  {| documentTypes := []; onComplete := false; onError := false;
     batchSize := 10; dryRun := false; maxResults := 100 |}.

(** The [useState] cells. *)
Record State : Type := mkState {
  searchQuery : string;
  selectedType : string;
  searchResults : list SearchResult;
  selectedItems : JsSet.t;
  isSearching : bool;
  isDeleting : bool;
  showConfirmDialog : bool;
  availableTypes : list string;
  customGroqQuery : string;
  useCustomQuery : bool;
  message : string
}.

Definition initialState : State :=
  {| searchQuery := EmptyString; selectedType := "all"; searchResults := [];
     selectedItems := JsSet.empty; isSearching := false; isDeleting := false;
     showConfirmDialog := false; availableTypes := [];
     customGroqQuery := EmptyString; useCustomQuery := false;
     message := EmptyString |}.

Definition setSearchQuery (v : string) (s : State) : State :=
  mkState v (selectedType s) (searchResults s) (selectedItems s)
    (isSearching s) (isDeleting s) (showConfirmDialog s) (availableTypes s)
    (customGroqQuery s) (useCustomQuery s) (message s).

Definition setSelectedType (v : string) (s : State) : State :=
  mkState (searchQuery s) v (searchResults s) (selectedItems s)
    (isSearching s) (isDeleting s) (showConfirmDialog s) (availableTypes s)
    (customGroqQuery s) (useCustomQuery s) (message s).

Definition setSearchResults (v : list SearchResult) (s : State) : State :=
  mkState (searchQuery s) (selectedType s) v (selectedItems s)
    (isSearching s) (isDeleting s) (showConfirmDialog s) (availableTypes s)
    (customGroqQuery s) (useCustomQuery s) (message s).

Definition setSelectedItems (v : JsSet.t) (s : State) : State :=
  mkState (searchQuery s) (selectedType s) (searchResults s) v
    (isSearching s) (isDeleting s) (showConfirmDialog s) (availableTypes s)
    (customGroqQuery s) (useCustomQuery s) (message s).

Definition setIsSearching (v : bool) (s : State) : State :=
  mkState (searchQuery s) (selectedType s) (searchResults s) (selectedItems s)
    v (isDeleting s) (showConfirmDialog s) (availableTypes s)
    (customGroqQuery s) (useCustomQuery s) (message s).

Definition setIsDeleting (v : bool) (s : State) : State :=
  mkState (searchQuery s) (selectedType s) (searchResults s) (selectedItems s)
    (isSearching s) v (showConfirmDialog s) (availableTypes s)
    (customGroqQuery s) (useCustomQuery s) (message s).

Definition setShowConfirmDialog (v : bool) (s : State) : State :=
  mkState (searchQuery s) (selectedType s) (searchResults s) (selectedItems s)
    (isSearching s) (isDeleting s) v (availableTypes s)
    (customGroqQuery s) (useCustomQuery s) (message s).

Definition setAvailableTypes (v : list string) (s : State) : State :=
  mkState (searchQuery s) (selectedType s) (searchResults s) (selectedItems s)
    (isSearching s) (isDeleting s) (showConfirmDialog s) v
    (customGroqQuery s) (useCustomQuery s) (message s).

Definition setCustomGroqQuery (v : string) (s : State) : State :=
  mkState (searchQuery s) (selectedType s) (searchResults s) (selectedItems s)
    (isSearching s) (isDeleting s) (showConfirmDialog s) (availableTypes s)
    v (useCustomQuery s) (message s).

Definition setUseCustomQuery (v : bool) (s : State) : State :=
  mkState (searchQuery s) (selectedType s) (searchResults s) (selectedItems s)
    (isSearching s) (isDeleting s) (showConfirmDialog s) (availableTypes s)
    (customGroqQuery s) v (message s).

Definition setMessage (v : string) (s : State) : State :=
  mkState (searchQuery s) (selectedType s) (searchResults s) (selectedItems s)
    (isSearching s) (isDeleting s) (showConfirmDialog s) (availableTypes s)
    (customGroqQuery s) (useCustomQuery s) v.

(** ** The query builder ([buildQuery]) *)

Definition quoted (s : string) : string := Js.DQ ++ s ++ Js.DQ.

(** [`_type == "${selectedType}"`] *)
Definition singleTypeCondition (ty : string) : string :=
  "_type == " ++ quoted ty.

(** [`_type in [${availableTypes.map(t => `"${t}"`).join(', ')}]`] *)
Definition knownTypesCondition (types : list string) : string :=
  "_type in [" ++ Js.join ", " (map quoted types) ++ "]".

Definition indent8 : string := "        ".
Definition indent6 : string := "      ".
Definition indent4 : string := "    ".

Definition matchTerm (term : string) : string :=
  " match " ++ quoted ("*" ++ term ++ "*").

(** The four-way, case-insensitive text condition. *)
Definition textCondition (term : string) : string :=
  "(" ++ Js.LF ++
  indent8 ++ "lower(title)" ++ matchTerm term ++ " ||" ++ Js.LF ++
  indent8 ++ "lower(name)" ++ matchTerm term ++ " ||" ++ Js.LF ++
  indent8 ++ "lower(slug.current)" ++ matchTerm term ++ " ||" ++ Js.LF ++
  indent8 ++ "lower(string::split(string(_id), " ++ quoted "." ++ ")[1])"
          ++ matchTerm term ++ Js.LF ++
  indent6 ++ ")".

(** The [conditions] array at the point where it is joined. *)
Definition typeConditions (s : State) : list string :=
  if negb (String.eqb (selectedType s) "all") then
    [singleTypeCondition (selectedType s)]
  else if (0 <? length (availableTypes s))%nat then
    [knownTypesCondition (availableTypes s)]
  else [].

Definition searchConditions (s : State) : list string :=
  if Js.truthy (Js.trim (searchQuery s)) then
    [textCondition (Js.toLowerCase (Js.trim (searchQuery s)))]
  else [].

Definition conditions (s : State) : list string :=
  (typeConditions s ++ searchConditions s)%list.

(** The text appended after the filter: result window and projection. *)
Definition windowAndProjection (maxResults : Z) : string :=
  "][0..." ++ Js.showZ maxResults ++ "] {" ++ Js.LF ++
  indent6 ++ "_id," ++ Js.LF ++
  indent6 ++ "_type," ++ Js.LF ++
  indent6 ++ "title," ++ Js.LF ++
  indent6 ++ "name," ++ Js.LF ++
  indent6 ++ "slug," ++ Js.LF ++
  indent6 ++ "_createdAt," ++ Js.LF ++
  indent6 ++ "_updatedAt" ++ Js.LF ++
  indent4 ++ "}".

(** Whether [buildQuery] takes its first [return]. *)
Definition customPath (s : State) : bool :=
  useCustomQuery s && Js.truthy (Js.trim (customGroqQuery s)).

Definition buildQuery (p : Props) (s : State) : string :=
  if customPath s then customGroqQuery s
  else
    let query := "*[" in
    let query :=
      if (0 <? length (conditions s))%nat
      then query ++ Js.join " && " (conditions s)
      else query in
    query ++ windowAndProjection (maxResults p).

(** ** The Sanity client and the calls a handler makes *)

(** How an awaited promise settles. *)
Inductive Outcome (A : Type) : Type :=
| Resolved (a : A)
| Rejected (e : Js.Thrown).
Arguments Resolved {A} a.
Arguments Rejected {A} e.

(** What [client.fetch] can resolve to, as far as [handleSearch] looks at
    it: an array of documents; [null] or [undefined], on which reading
    [.length] throws a [TypeError] with the engine's message; or any other
    value, with the text that [`${results.length}`] renders to. *)
Inductive FetchValue : Type :=
| VArray (docs : list SearchResult)
| VNullish (typeError : string)
| VOther (lengthText : string).

(** The remote document store: a state, a read and an atomic multi-delete. *)
Record Client (Store : Type) : Type := mkClient {
  fetch : Store -> string -> Outcome FetchValue * Store;
  fetchTypes : Store -> Outcome (list string) * Store;
  commit : Store -> list string -> Outcome unit * Store
}.
Arguments fetch {Store} c w q.
Arguments fetchTypes {Store} c w.
Arguments commit {Store} c w ids.

Inductive Event : Type :=
| FetchTypes
| ConsoleErrorTypes (e : Js.Thrown)
| ConsoleLogQuery (query : string)
| Fetch (query : string)
| ConsoleErrorSearch (e : Js.Thrown)
| OnError (msg : string)
| ConsoleLogDryRun (batch : list string)
| Commit (batch : list string) (result : Outcome unit)
| OnComplete (deleted : nat) (errors : list string).

(** [callback?.(payload)]: the call happens only when the prop was given. *)
Definition optionalCall (supplied : bool) (e : Event) : list Event :=
  if supplied then [e] else [].

(** ** The selection tracker *)

Definition toggleItemSelection (id : string) (s : State) : State :=
  let newSelected := selectedItems s in
  let newSelected :=
    if JsSet.has newSelected id then JsSet.delete newSelected id
    else JsSet.add newSelected id in
  setSelectedItems newSelected s.

Definition selectAll (s : State) : State :=
  let allIds := JsSet.ofList (map _id (searchResults s)) in
  setSelectedItems allIds s.

Definition clearSelection (s : State) : State :=
  setSelectedItems JsSet.empty s.

(** The guard of [handleSearch]:
    [!searchQuery.trim() && !useCustomQuery]. *)
Definition searchRejected (s : State) : bool :=
  negb (Js.truthy (Js.trim (searchQuery s))) && negb (useCustomQuery s).

Section Handlers.

Context {Store : Type}.
Variable p : Props.
Variable client : Client Store.

(** ** Loading the known types ([loadAvailableTypes])

    The types are the [documentTypes] prop or, when that is empty, the
    answer of the store to the query for the distinct [_type] values;
    [filter(Boolean)] drops the empty names. *)
Definition loadAvailableTypes (s : State) (w : Store)
    : State * Store * list Event :=
  if (0 <? length (documentTypes p))%nat then
    (setAvailableTypes (filter Js.truthy (documentTypes p)) s, w, [])
  else
    match fetchTypes client w with
    | (Resolved types, w') =>
        (setAvailableTypes (filter Js.truthy types) s, w', [FetchTypes])
    | (Rejected e, w') =>
        (s, w',
         (FetchTypes :: ConsoleErrorTypes e
            :: optionalCall (onError p)
                 (OnError "Failed to load document types"))%list)
    end.

(** ** The search executor ([handleSearch]) *)

(** [Array.isArray(results) ? results : []] *)
Definition asArray (results : FetchValue) : list SearchResult :=
  match results with
  | VArray docs => docs
  | _ => []
  end.

(** [`${results.length}`], or the [TypeError] that reading it throws. *)
Definition lengthText (results : FetchValue) : string + Js.Thrown :=
  match results with
  | VArray docs => inl (Js.showNat (length docs))
  | VNullish msg => inr (Js.ErrorObject msg)
  | VOther txt => inl txt
  end.

(** The [catch] clause followed by the [finally] clause. *)
Definition searchFailed (e : Js.Thrown) (s : State) : State * list Event :=
  let errorMessage := Js.messageOr "Search failed" e in
  (setIsSearching false (setMessage ("Search error: " ++ errorMessage) s),
   ConsoleErrorSearch e :: optionalCall (onError p) (OnError errorMessage)).

Definition handleSearch (s : State) (w : Store) : State * Store * list Event :=
  if searchRejected s then
    (setMessage "Please enter a search term or use custom query" s, w, [])
  else
    let s1 := setMessage EmptyString (setIsSearching true s) in
    let query := buildQuery p s in
    let issued := [ConsoleLogQuery query; Fetch query] in
    match fetch client w query with
    | (Resolved results, w') =>
        let s2 := setSelectedItems JsSet.empty
                    (setSearchResults (asArray results) s1) in
        match lengthText results with
        | inl n =>
            (setIsSearching false
               (setMessage ("Found " ++ n ++ " documents") s2), w', issued)
        | inr e =>
            let '(s3, calls) := searchFailed e s2 in
            (s3, w', (issued ++ calls)%list)
        end
    | (Rejected e, w') =>
        let '(s3, calls) := searchFailed e s1 in
        (s3, w', (issued ++ calls)%list)
    end.

(** ** The batch deleter ([handleDelete]) *)

(** The running values of one delete run: the two local variables, the
    component state as the [setMessage] calls leave it, the store, and the
    calls made so far. *)
Record Run : Type := mkRun {
  deletedCount : nat;
  errors : list string;
  ui : State;
  world : Store;
  calls : list Event
}.

(** [`${i / batchSize + 1}`].  The loop only ever divides a multiple of
    [batchSize] by [batchSize], where the quotient is exact; [0 / 0] is
    [NaN]. *)
Definition batchOrdinal (i b : Z) : string :=
  if (b =? 0)%Z then "NaN" else Js.showZ (i / b + 1).

Definition batchError (i : Z) (e : Js.Thrown) : string :=
  "Batch " ++ batchOrdinal i (batchSize p) ++ ": "
           ++ Js.messageOr "Unknown error" e.

(** One pass through the body of the [for] loop, at index [i]. *)
Definition deleteBatch (itemsToDelete : list string) (i : Z) (r : Run) : Run :=
  let batch := Js.slice itemsToDelete i (i + batchSize p) in
  if dryRun p then
    mkRun (deletedCount r + length batch) (errors r) (ui r) (world r)
          (calls r ++ [ConsoleLogDryRun batch])
  else
    match commit client (world r) batch with
    | (Resolved tt, w') =>
        let deleted := deletedCount r + length batch in
        mkRun deleted (errors r)
              (setMessage ("Deleted " ++ Js.showNat deleted ++ "/"
                           ++ Js.showNat (length itemsToDelete) ++ " items...")
                          (ui r))
              w' (calls r ++ [Commit batch (Resolved tt)])
    | (Rejected e, w') =>
        mkRun (deletedCount r) (errors r ++ [batchError i e]) (ui r)
              w' (calls r ++ [Commit batch (Rejected e)])
    end.

(** [for (let i = 0; i < itemsToDelete.length; i += batchSize) { ... }] *)
Fixpoint deleteLoop (fuel : nat) (itemsToDelete : list string) (i : Z)
    (r : Run) : option Run :=
  if (i <? Z.of_nat (length itemsToDelete))%Z then
    match fuel with
    | O => None
    | S fuel' =>
        deleteLoop fuel' itemsToDelete (i + batchSize p)
                   (deleteBatch itemsToDelete i r)
    end
  else Some r.

Definition finalMessage (deleted : nat) (errs : list string) : string :=
  if dryRun p then
    "DRY RUN: Would delete " ++ Js.showNat deleted ++ " items"
  else
    "Successfully deleted " ++ Js.showNat deleted ++ " items"
      ++ (if (0 <? length errs)%nat
          then " (" ++ Js.showNat (length errs) ++ " errors)"
          else EmptyString).

Definition handleDelete (fuel : nat) (s : State) (w : Store)
    : option (State * Store * list Event) :=
  if (JsSet.size (selectedItems s) =? 0)%nat then Some (s, w, [])
  else
    let s1 := setMessage EmptyString (setIsDeleting true s) in
    let itemsToDelete := JsSet.toArray (selectedItems s) in
    match deleteLoop fuel itemsToDelete 0 (mkRun 0 [] s1 w []) with
    | None => None
    | Some r =>
        let remainingResults :=
          filter (fun item => negb (JsSet.has (selectedItems s) (_id item)))
                 (searchResults s) in
        let s2 := setSelectedItems JsSet.empty
                    (setSearchResults remainingResults (ui r)) in
        let s3 := setMessage (finalMessage (deletedCount r) (errors r)) s2 in
        let reported :=
          optionalCall (onComplete p)
                       (OnComplete (deletedCount r) (errors r)) in
        Some (setShowConfirmDialog false (setIsDeleting false s3),
              world r, (calls r ++ reported)%list)
    end.

End Handlers.

(** ** The rendered controls

    What the operator can do is what the JSX renders: each control calls one
    handler, and some controls are rendered or enabled only in some states. *)

Inductive Action : Type :=
| Mount
| ChooseType (ty : string)
| TypeSearchTerm (text : string)
| CheckCustomQuery (checked : bool)
| TypeCustomQuery (text : string)
| ClickSearch
| ClickCheckbox (id : string)
| ClickSelectAll
| ClickClear
| ClickDeleteSelected
| CloseDialog
| ConfirmDelete (fuel : nat).

Definition mem (x : string) (l : list string) : bool :=
  existsb (String.eqb x) l.

Definition resultsShown (s : State) : bool :=
  (0 <? length (searchResults s))%nat.

Definition enabled (s : State) (a : Action) : bool :=
  match a with
  | Mount => true
  | ChooseType ty => String.eqb ty "all" || mem ty (availableTypes s)
  | TypeSearchTerm _ => negb (useCustomQuery s)
  | CheckCustomQuery _ => true
  | TypeCustomQuery _ => useCustomQuery s
  | ClickSearch => true
  | ClickCheckbox id => mem id (map _id (searchResults s))
  | ClickSelectAll => resultsShown s
  | ClickClear => resultsShown s
  | ClickDeleteSelected =>
      resultsShown s && negb (JsSet.size (selectedItems s) =? 0)%nat
  | CloseDialog => showConfirmDialog s
  | ConfirmDelete _ => showConfirmDialog s
  end.

Definition dispatch {Store} (p : Props) (client : Client Store) (a : Action)
    (s : State) (w : Store) : option (State * Store * list Event) :=
  if enabled s a then
    match a with
    | Mount => Some (loadAvailableTypes p client s w)
    | ChooseType ty => Some (setSelectedType ty s, w, [])
    | TypeSearchTerm text => Some (setSearchQuery text s, w, [])
    | CheckCustomQuery b => Some (setUseCustomQuery b s, w, [])
    | TypeCustomQuery text => Some (setCustomGroqQuery text s, w, [])
    | ClickSearch => Some (handleSearch p client s w)
    | ClickCheckbox id => Some (toggleItemSelection id s, w, [])
    | ClickSelectAll => Some (selectAll s, w, [])
    | ClickClear => Some (clearSelection s, w, [])
    | ClickDeleteSelected => Some (setShowConfirmDialog true s, w, [])
    | CloseDialog => Some (setShowConfirmDialog false s, w, [])
    | ConfirmDelete fuel => handleDelete p client fuel s w
    end
  else None.

(** A session: the actions in order, from a given state and store. *)
Fixpoint session {Store} (p : Props) (client : Client Store)
    (actions : list Action) (s : State) (w : Store)
    : option (State * Store * list Event) :=
  match actions with
  | [] => Some (s, w, [])
  | a :: rest =>
      match dispatch p client a s w with
      | None => None
      | Some (s1, w1, tr1) =>
          match session p client rest s1 w1 with
          | None => None
          | Some (s2, w2, tr2) => Some (s2, w2, (tr1 ++ tr2)%list)
          end
      end
  end.

(** ** Reading a list of calls *)

(** The batches a delete run handled, in order. *)
Fixpoint batchesOf (tr : list Event) : list (list string) :=
  match tr with
  | [] => []
  | ConsoleLogDryRun b :: rest => b :: batchesOf rest
  | Commit b _ :: rest => b :: batchesOf rest
  | _ :: rest => batchesOf rest
  end.

(** The transactions sent to the store, with how each one settled. *)
Fixpoint commitsOf (tr : list Event) : list (list string * Outcome unit) :=
  match tr with
  | [] => []
  | Commit b o :: rest => (b, o) :: commitsOf rest
  | _ :: rest => commitsOf rest
  end.

Fixpoint fetchesOf (tr : list Event) : list string :=
  match tr with
  | [] => []
  | Fetch q :: rest => q :: fetchesOf rest
  | _ :: rest => fetchesOf rest
  end.

(** The payloads handed to [onComplete]. *)
Fixpoint completionsOf (tr : list Event) : list (nat * list string) :=
  match tr with
  | [] => []
  | OnComplete d errs :: rest => (d, errs) :: completionsOf rest
  | _ :: rest => completionsOf rest
  end.

(** The messages handed to [onError]. *)
Fixpoint errorReportsOf (tr : list Event) : list string :=
  match tr with
  | [] => []
  | OnError m :: rest => m :: errorReportsOf rest
  | _ :: rest => errorReportsOf rest
  end.

(** Items of the transactions that committed. *)
Fixpoint committedItems (cs : list (list string * Outcome unit)) : nat :=
  match cs with
  | [] => 0
  | (b, Resolved _) :: rest => length b + committedItems rest
  | (_, Rejected _) :: rest => committedItems rest
  end.

(** One message per rejected transaction, tagged with the position of the
    transaction in the run; [k] is the position of the first one. *)
Fixpoint rejections (k : Z) (cs : list (list string * Outcome unit))
    : list string :=
  match cs with
  | [] => []
  | (_, Resolved _) :: rest => rejections (k + 1) rest
  | (_, Rejected e) :: rest =>
      ("Batch " ++ Js.showZ k ++ ": " ++ Js.messageOr "Unknown error" e)
        :: rejections (k + 1) rest
  end.

(** ceil(n / b) for [b >= 1]. *)
Definition ceilDiv (n b : Z) : Z := ((n + b - 1) / b)%Z.

Definition ids (results : list SearchResult) : list string :=
  map _id results.

(** A query that ends with the result window and the projection. *)
Definition CappedAndProjected (p : Props) (query : string) : Prop :=
  exists filter, query = "*[" ++ filter ++ windowAndProjection (maxResults p).

(** A delete run that reports [deleted] and [errs]: through the completion
    callback, or in the final status line. *)
Definition Reports {Store} (p : Props) (client : Client Store) (fuel : nat)
    (s : State) (w : Store) (deleted : nat) (errs : list string) : Prop :=
  exists s' w' tr,
    handleDelete p client fuel s w = Some (s', w', tr) /\
    (In (deleted, errs) (completionsOf tr) \/
     message s' = finalMessage p deleted errs).

(** The call that records one transaction. *)
Definition commitEvent (c : list string * Outcome unit) : Event :=
  Commit (fst c) (snd c).

(** What the loop of [handleDelete] has done between index [i], where the
    running values were [r], and its exit with [r']: the calls [new] it
    added, the batches among them, and the two counters. *)
Definition LoopSegment {Store} (p : Props) (items : list string) (i : Z)
    (r r' : @Run Store) (new : list Event) : Prop :=
  calls r' = (calls r ++ new)%list /\
  concat (batchesOf new) = skipn (Z.to_nat i) items /\
  Forall (fun b => (Z.of_nat (length b) <= batchSize p)%Z) (batchesOf new) /\
  Z.of_nat (length (batchesOf new))
    = ceilDiv (Z.max 0 (Z.of_nat (length items) - i)) (batchSize p) /\
  (exists m, ui r' = setMessage m (ui r)) /\
  if dryRun p then
    new = map ConsoleLogDryRun (batchesOf new) /\
    deletedCount r' = (deletedCount r + length (skipn (Z.to_nat i) items))%nat /\
    errors r' = errors r /\
    world r' = world r
  else
    new = map commitEvent (commitsOf new) /\
    batchesOf new = map fst (commitsOf new) /\
    deletedCount r' = (deletedCount r + committedItems (commitsOf new))%nat /\
    errors r' = (errors r ++ rejections (i / batchSize p + 1) (commitsOf new))%list.

(** ** Sample data

    A store that counts the calls it has received, rejects every document
    read and rejects the transaction it receives as its second call, a result list of six documents, and a selection of five of
    them. *)

Definition flakyClient : Client nat :=
  mkClient nat
    (fun w q => (Rejected (Js.ErrorObject "timeout"), S w))
    (fun w => (Resolved ["post"], S w))
    (fun w batch =>
       (if (w =? 1)%nat then Rejected (Js.ErrorObject "conflict")
        else Resolved tt, S w)).

Definition doc (id ty : string) : SearchResult :=
  mkSearchResult id ty None None None.

Definition sixPosts : list SearchResult :=
  [doc "a" "post"; doc "b" "post"; doc "c" "post";
   doc "d" "post"; doc "e" "post"; doc "f" "post"].

Definition fiveSelected : State :=
  mkState "post" "all" sixPosts ["a"; "b"; "c"; "d"; "e"]
          false false true ["post"] EmptyString false
          "Found 6 documents".

Definition liveProps : Props := mkProps [] true true 2 false 100.
Definition previewProps : Props := mkProps [] true true 2 true 100.

(** A store that holds documents: a read returns all of them, a
    transaction removes the identifiers it names and always commits. *)
Definition archiveClient : Client (list SearchResult) :=
  mkClient (list SearchResult)
    (fun w q => (Resolved (VArray w), w))
    (fun w => (Resolved (map _type w), w))
    (fun w batch =>
       (Resolved tt, filter (fun d => negb (mem (_id d) batch)) w)).

Definition customStar : State :=
  setCustomGroqQuery "*" (setUseCustomQuery true initialState).

Definition acmeSearch : State := setSearchQuery " Acme " initialState.

Definition blankSearch : State := setSearchQuery "   " fiveSelected.

Definition postsOnly : State := setSelectedType "post" fiveSelected.

Definition sampleSession : list Action :=
  [TypeSearchTerm "post"; ClickSearch; ClickSelectAll; ClickCheckbox "b"].

(** The selection lies within the identifiers of the result list. *)
Definition SelectionWithinResults (s : State) : Prop :=
  forall id, In id (selectedItems s) -> In id (ids (searchResults s)).

(** ** Rendering ([getDisplayTitle], the status card) *)

(** [a || b] on an optional string: [a] when it is there and not empty. *)
Definition orElse (a : option string) (b : string) : string :=
  match a with
  | Some t => if Js.truthy t then t else b
  | None => b
  end.

(** [item.title || item.name || item.slug?.current || item._id]; the
    field [slug] of the record stands for [slug?.current]. *)
Definition getDisplayTitle (item : SearchResult) : string :=
  orElse (title item) (orElse (name item) (orElse (slug item) (_id item))).

(** [String.prototype.startsWith] and [String.prototype.includes]. *)
Fixpoint startsWith (needle s : string) : bool :=
  match needle, s with
  | EmptyString, _ => true
  | String _ _, EmptyString => false
  | String a needle', String b s' => Ascii.eqb a b && startsWith needle' s'
  end.

Fixpoint includes (needle s : string) : bool :=
  startsWith needle s ||
  match s with
  | EmptyString => false
  | String _ s' => includes needle s'
  end.

Inductive Tone : Type := critical | positive.

(** [{message && <Card tone={message.includes('error') ? 'critical' :
    'positive'}>...}]: no card for an empty message. *)
Definition statusCard (s : State) : option Tone :=
  if Js.truthy (message s) then
    Some (if includes "error" (message s) then critical else positive)
  else None.

(** ** More readings of a delete run *)

(** Items of the transactions that were rejected. *)
Fixpoint rejectedItems (cs : list (list string * Outcome unit)) : nat :=
  match cs with
  | [] => 0
  | (_, Resolved _) :: rest => rejectedItems rest
  | (b, Rejected _) :: rest => length b + rejectedItems rest
  end.

Definition isRejected (c : list string * Outcome unit) : bool :=
  match snd c with
  | Rejected _ => true
  | Resolved _ => false
  end.

(** The windows [slice(i, i + b)] that the loop of [handleDelete] cuts
    from index [i] on, with the loop's own exit test and fuel. *)
Fixpoint windows (fuel : nat) (items : list string) (b i : Z)
    : list (list string) :=
  if (i <? Z.of_nat (length items))%Z then
    match fuel with
    | O => []
    | S fuel' => Js.slice items i (i + b) :: windows fuel' items b (i + b)
    end
  else [].

Definition digitsOnly (s : string) : bool :=
  forallb (fun c => let n := nat_of_ascii c in
                    (48 <=? n)%nat && (n <=? 57)%nat)
          (list_ascii_of_string s).

(** ** More sample data *)

Definition untitled : SearchResult :=
  mkSearchResult "post.42" "post" (Some EmptyString) None (Some "hello").

Definition zeroBatchProps : Props := mkProps [] true true 0 false 100.

Definition typedProps : Props :=
  mkProps ["post"; EmptyString; "page"] true true 10 false 100.

Definition customBlank : State :=
  setCustomGroqQuery "  " (setUseCustomQuery true initialState).

(** A store whose document read resolves with [null]. *)
Definition nullClient : Client unit :=
  mkClient unit
    (fun w q => (Resolved (VNullish "Cannot read properties of null"), w))
    (fun w => (Rejected Js.NonError, w))
    (fun w batch => (Resolved tt, w)).

(** What the operator typed or chose in the form. *)
Definition formInputs (s : State)
    : string * string * list string * string * bool :=
  (searchQuery s, selectedType s, availableTypes s, customGroqQuery s,
   useCustomQuery s).

(** ** What the store answers

    The store, asked to commit the given batches one after the other from
    state [w]: each batch with the answer [commit] gives to it, and the
    state the store is left in.  This is the store's side of a live run,
    written without the component. *)
Fixpoint replay {Store} (client : Client Store) (w : Store)
    (batches : list (list string))
    : list (list string * Outcome unit) * Store :=
  match batches with
  | [] => ([], w)
  | batch :: rest =>
      let '(answer, w1) := commit client w batch in
      let '(answers, w2) := replay client w1 rest in
      ((batch, answer) :: answers, w2)
  end.

(** An optional field that is missing or holds the empty string. *)
Definition blank (a : option string) : Prop :=
  a = None \/ a = Some EmptyString.

(** * Properties *)

Local Open Scope list_scope.
Local Open Scope Z_scope.

(** ** Arithmetic of the ceiling *)

Lemma ceilDiv_zero (b : Z) : 1 <= b -> ceilDiv 0 b = 0.
Proof.
  intros Hb. unfold ceilDiv. apply Z.div_small. lia.
Qed.

Lemma ceilDiv_step (n b : Z) :
  1 <= b -> 1 <= n -> ceilDiv n b = 1 + ceilDiv (Z.max 0 (n - b)) b.
Proof.
  intros Hb Hn. unfold ceilDiv.
  destruct (Z.le_gt_cases b n) as [Hle | Hgt].
  - rewrite Z.max_r by lia.
    replace (n + b - 1) with ((n - b + b - 1) + 1 * b) by lia.
    rewrite Z.div_add by lia. lia.
  - rewrite Z.max_l by lia.
    rewrite (Z.div_small (0 + b - 1) b) by lia.
    symmetry. apply Z.div_unique with (r := n - 1); lia.
Qed.

Lemma ceilDiv_bounds (n b : Z) :
  1 <= b -> 0 <= n -> (ceilDiv n b - 1) * b < n <= ceilDiv n b * b.
Proof.
  intros Hb Hn. unfold ceilDiv.
  pose proof (Z.div_mod (n + b - 1) b ltac:(lia)) as Hdm.
  pose proof (Z.mod_pos_bound (n + b - 1) b ltac:(lia)) as Hm.
  nia.
Qed.

(** ** [slice] on the windows the loop asks for *)

Lemma slice_window {A} (l : list A) (i b : Z) :
  0 <= i < Z.of_nat (length l) -> 1 <= b ->
  Js.slice l i (i + b) = firstn (Z.to_nat b) (skipn (Z.to_nat i) l).
Proof.
  intros Hi Hb. unfold Js.slice, Js.relIndex.
  destruct (Z.ltb_spec i 0) as [|_]; [lia|].
  destruct (Z.ltb_spec (i + b) 0) as [|_]; [lia|].
  rewrite (Z.min_l i) by lia.
  destruct (Z.le_gt_cases (i + b) (Z.of_nat (length l))) as [Hin | Hout].
  - rewrite Z.min_l by lia. f_equal. lia.
  - rewrite Z.min_r by lia.
    assert (Hlen : length (skipn (Z.to_nat i) l)
                   = Z.to_nat (Z.of_nat (length l) - i)).
    { rewrite length_skipn. lia. }
    rewrite <- Hlen, firstn_all.
    symmetry. apply firstn_all2. lia.
Qed.

(** ** Reading calls distributes over concatenation *)

Lemma batchesOf_app (a b : list Event) :
  batchesOf (a ++ b) = batchesOf a ++ batchesOf b.
Proof.
  induction a as [|e a IH]; simpl; [reflexivity|].
  destruct e; simpl; rewrite ?IH; reflexivity.
Qed.

Lemma commitsOf_app (a b : list Event) :
  commitsOf (a ++ b) = commitsOf a ++ commitsOf b.
Proof.
  induction a as [|e a IH]; simpl; [reflexivity|].
  destruct e; simpl; rewrite ?IH; reflexivity.
Qed.

Lemma completionsOf_app (a b : list Event) :
  completionsOf (a ++ b) = completionsOf a ++ completionsOf b.
Proof.
  induction a as [|e a IH]; simpl; [reflexivity|].
  destruct e; simpl; rewrite ?IH; reflexivity.
Qed.

Lemma setMessage_same (s : State) : setMessage (message s) s = s.
Proof. destruct s; reflexivity. Qed.

Lemma setMessage_twice (m1 m2 : string) (s : State) :
  setMessage m2 (setMessage m1 s) = setMessage m2 s.
Proof. reflexivity. Qed.

(** ** The loop of [handleDelete] *)

Ltac segment_simpl :=
  cbn [batchesOf commitsOf completionsOf map concat committedItems rejections
       fst snd commitEvent length app].

Section DeleteLoop.

Context {Store : Type}.
Variable p : Props.
Variable client : Client Store.
Variable items : list string.
Hypothesis batch_pos : 1 <= batchSize p.

Lemma batchOrdinal_pos (i : Z) :
  batchOrdinal i (batchSize p) = Js.showZ (i / batchSize p + 1).
Proof.
  unfold batchOrdinal. destruct (Z.eqb_spec (batchSize p) 0); [lia|reflexivity].
Qed.

Lemma deleteLoop_done (fuel : nat) (i : Z) (r : Run) :
  Z.of_nat (length items) <= i ->
  deleteLoop p client fuel items i r = Some r.
Proof.
  intros Hi. destruct fuel; simpl;
    destruct (Z.ltb_spec i (Z.of_nat (length items))); (lia || reflexivity).
Qed.

Lemma deleteLoop_next (fuel : nat) (i : Z) (r : Run) :
  i < Z.of_nat (length items) ->
  deleteLoop p client (S fuel) items i r
  = deleteLoop p client fuel items (i + batchSize p)
      (deleteBatch p client items i r).
Proof.
  intros Hi. simpl.
  destruct (Z.ltb_spec i (Z.of_nat (length items))); [reflexivity|lia].
Qed.

Lemma segment_done (i : Z) (r : @Run Store) :
  Z.of_nat (length items) <= i -> 0 <= i ->
  LoopSegment p items i r r [].
Proof.
  intros Hi Hi0. unfold LoopSegment. simpl.
  assert (Hskip : skipn (Z.to_nat i) items = []).
  { apply skipn_all2. lia. }
  rewrite Hskip, app_nil_r. simpl.
  repeat split; auto.
  - rewrite Z.max_l by lia. rewrite ceilDiv_zero; auto.
  - exists (message (ui r)). symmetry. apply setMessage_same.
  - destruct (dryRun p); repeat split; simpl;
      rewrite ?Nat.add_0_r, ?app_nil_r; reflexivity.
Qed.

Lemma segment_step (i : Z) (r r' : @Run Store) (new : list Event) :
  0 <= i < Z.of_nat (length items) ->
  LoopSegment p items (i + batchSize p) (deleteBatch p client items i r) r' new ->
  exists ev, LoopSegment p items i r r' (ev :: new).
Proof.
  intros Hi (Hcalls & Hcat & Hall & Hcount & (m & Hui) & Hmode).
  pose proof (slice_window items i (batchSize p) Hi batch_pos) as Hslice.
  set (b := firstn (Z.to_nat (batchSize p)) (skipn (Z.to_nat i) items)) in *.
  assert (Hsplit : b ++ skipn (Z.to_nat (i + batchSize p)) items
                   = skipn (Z.to_nat i) items).
  { replace (Z.to_nat (i + batchSize p))
      with (Z.to_nat (batchSize p) + Z.to_nat i)%nat by lia.
    rewrite <- skipn_skipn. apply firstn_skipn. }
  assert (Hblen : Z.of_nat (length b) <= batchSize p).
  { unfold b. rewrite length_firstn. lia. }
  assert (Hceil : ceilDiv (Z.max 0 (Z.of_nat (length items) - i)) (batchSize p)
                  = 1 + ceilDiv (Z.max 0 (Z.of_nat (length items)
                                          - (i + batchSize p))) (batchSize p)).
  { rewrite (Z.max_r 0 (Z.of_nat (length items) - i)) by lia.
    rewrite ceilDiv_step by lia. do 3 f_equal. lia. }
  assert (Hord : (i + batchSize p) / batchSize p + 1 = (i / batchSize p + 1) + 1).
  { replace (i + batchSize p) with (i + 1 * batchSize p) by lia.
    rewrite Z.div_add by lia. reflexivity. }
  unfold deleteBatch in Hcalls, Hui, Hmode.
  rewrite Hslice in Hcalls, Hui, Hmode.
  destruct (dryRun p) eqn:Hdry.
  - exists (ConsoleLogDryRun b).
    cbn [calls ui deletedCount errors world] in Hcalls, Hui, Hmode.
    destruct Hmode as (Hnew & Hdel & Herr & Hw).
    unfold LoopSegment. rewrite Hdry. segment_simpl.
    repeat split.
    + rewrite Hcalls, <- app_assoc. reflexivity.
    + rewrite Hcat. exact Hsplit.
    + constructor; assumption.
    + rewrite Hceil. lia.
    + exists m. exact Hui.
    + f_equal. exact Hnew.
    + rewrite Hdel, <- Hsplit, length_app. lia.
    + exact Herr.
    + exact Hw.
  - destruct (commit client (world r) b) as [[[]|e] w'] eqn:Hcommit;
      cbn [calls ui deletedCount errors world] in Hcalls, Hui, Hmode;
      destruct Hmode as (Hnew & Hfst & Hdel & Herr).
    + exists (Commit b (Resolved tt)).
      unfold LoopSegment. rewrite Hdry. segment_simpl.
      repeat split.
      * rewrite Hcalls, <- app_assoc. reflexivity.
      * rewrite Hcat. exact Hsplit.
      * constructor; assumption.
      * rewrite Hceil. lia.
      * exists m. rewrite Hui. reflexivity.
      * f_equal. exact Hnew.
      * f_equal. exact Hfst.
      * rewrite Hdel. lia.
      * rewrite Herr, Hord. reflexivity.
    + exists (Commit b (Rejected e)).
      unfold LoopSegment. rewrite Hdry. segment_simpl.
      repeat split.
      * rewrite Hcalls, <- app_assoc. reflexivity.
      * rewrite Hcat. exact Hsplit.
      * constructor; assumption.
      * rewrite Hceil. lia.
      * exists m. exact Hui.
      * f_equal. exact Hnew.
      * f_equal. exact Hfst.
      * exact Hdel.
      * rewrite Herr, Hord, <- app_assoc.
        unfold batchError. rewrite batchOrdinal_pos. reflexivity.
Qed.

(** With [batchSize >= 1] the loop exits within [length items] passes. *)
Lemma deleteLoop_segment (fuel : nat) : forall (i : Z) (r : Run),
  0 <= i ->
  Z.of_nat (length items) - i <= Z.of_nat fuel ->
  exists r' new,
    deleteLoop p client fuel items i r = Some r' /\ LoopSegment p items i r r' new.
Proof.
  induction fuel as [|fuel IH]; intros i r Hi Hfuel.
  - exists r, []. split.
    + apply deleteLoop_done. lia.
    + apply segment_done; lia.
  - destruct (Z.lt_ge_cases i (Z.of_nat (length items))) as [Hlt | Hge].
    + destruct (IH (i + batchSize p) (deleteBatch p client items i r))
        as (r' & new & Hrun & Hseg); [lia | lia |].
      destruct (segment_step i r r' new ltac:(lia) Hseg) as (ev & Hseg').
      exists r', (ev :: new). split; [|exact Hseg'].
      rewrite deleteLoop_next by lia. exact Hrun.
    + exists r, []. split.
      * apply deleteLoop_done. lia.
      * apply segment_done; lia.
Qed.

End DeleteLoop.

(** ** Membership in a [Set] *)

Lemma has_In (s : JsSet.t) (id : string) : JsSet.has s id = true <-> In id s.
Proof.
  unfold JsSet.has. rewrite existsb_exists. split.
  - intros (x & Hx & Heq). apply String.eqb_eq in Heq. subst. exact Hx.
  - intros H. exists id. split; [exact H|apply String.eqb_refl].
Qed.

Lemma has_false (s : JsSet.t) (id : string) :
  JsSet.has s id = false <-> ~ In id s.
Proof.
  rewrite <- has_In. destruct (JsSet.has s id); split; congruence.
Qed.

Lemma In_delete (s : JsSet.t) (id x : string) :
  In x (JsSet.delete s id) <-> In x s /\ x <> id.
Proof.
  unfold JsSet.delete. rewrite filter_In, negb_true_iff.
  split; intros [H1 H2]; split; auto.
  - intros ->. rewrite String.eqb_refl in H2. discriminate.
  - apply String.eqb_neq. congruence.
Qed.

Lemma In_add (s : JsSet.t) (id x : string) :
  In x (JsSet.add s id) <-> In x s \/ x = id.
Proof.
  unfold JsSet.add. destruct (JsSet.has s id) eqn:Hhas.
  - apply has_In in Hhas. split; [auto|]. intros [H | ->]; assumption.
  - rewrite in_app_iff. simpl. intuition.
Qed.

Lemma In_fold_add (l : list string) : forall (acc : JsSet.t) (x : string),
  In x (fold_left JsSet.add l acc) <-> In x acc \/ In x l.
Proof.
  induction l as [|y l IH]; intros acc x; simpl.
  - tauto.
  - rewrite IH, In_add. intuition.
Qed.

Lemma In_ofList (l : list string) (x : string) :
  In x (JsSet.ofList l) <-> In x l.
Proof.
  unfold JsSet.ofList. rewrite In_fold_add. simpl. tauto.
Qed.

(** ** One whole delete run *)

Lemma batchesOf_optionalCall (b : bool) (d : nat) (errs : list string) :
  batchesOf (optionalCall b (OnComplete d errs)) = [].
Proof. destruct b; reflexivity. Qed.

Lemma commitsOf_optionalCall (b : bool) (d : nat) (errs : list string) :
  commitsOf (optionalCall b (OnComplete d errs)) = [].
Proof. destruct b; reflexivity. Qed.

Lemma completionsOf_optionalCall (b : bool) (d : nat) (errs : list string) :
  completionsOf (optionalCall b (OnComplete d errs))
  = if b then [(d, errs)] else [].
Proof. destruct b; reflexivity. Qed.

Lemma completionsOf_batches (bs : list (list string)) :
  completionsOf (map ConsoleLogDryRun bs) = [].
Proof. induction bs; simpl; auto. Qed.

Lemma commitsOf_batches (bs : list (list string)) :
  commitsOf (map ConsoleLogDryRun bs) = [].
Proof. induction bs; simpl; auto. Qed.

Lemma completionsOf_commits (cs : list (list string * Outcome unit)) :
  completionsOf (map commitEvent cs) = [].
Proof. induction cs; simpl; auto. Qed.

(** The state a finished run leaves behind. *)
Lemma handleDelete_run {Store} (p : Props) (client : Client Store)
    (fuel : nat) (s : State) (w : Store) :
  1 <= batchSize p ->
  selectedItems s <> [] ->
  (length (selectedItems s) <= fuel)%nat ->
  exists r new,
    LoopSegment p (selectedItems s) 0
      (mkRun 0 [] (setMessage EmptyString (setIsDeleting true s)) w []) r new /\
    handleDelete p client fuel s w
    = Some (mkState (searchQuery s) (selectedType s)
              (filter (fun item => negb (JsSet.has (selectedItems s) (_id item)))
                      (searchResults s))
              JsSet.empty (isSearching s) false false (availableTypes s)
              (customGroqQuery s) (useCustomQuery s)
              (finalMessage p (deletedCount r) (errors r)),
            world r,
            new ++ optionalCall (onComplete p)
                     (OnComplete (deletedCount r) (errors r))).
Proof.
  intros HB Hne Hfuel.
  destruct (deleteLoop_segment p client (selectedItems s) HB fuel 0
              (mkRun 0 [] (setMessage EmptyString (setIsDeleting true s)) w []))
    as (r & new & Hrun & Hseg); [lia | lia |].
  exists r, new. split; [exact Hseg|].
  unfold handleDelete, JsSet.size, JsSet.toArray.
  destruct (selectedItems s) as [|x l] eqn:Hsel; [congruence|].
  cbn [length Nat.eqb]. rewrite Hrun.
  destruct Hseg as (Hcalls & _ & _ & _ & (m & Hui) & _).
  rewrite Hui, Hcalls. reflexivity.
Qed.

(** ** The batch deleter *)

(** C1.  For a selection of size N and a batch size B >= 1, the batches that
    [handleDelete] handles number ceil(N/B), each has at most B identifiers,
    and concatenated in order they are the selected identifiers in iteration
    order.  The run ends within N passes of the loop. *)
Theorem handleDelete_partition {Store} (p : Props) (client : Client Store)
    (fuel : nat) (s : State) (w : Store) :
  1 <= batchSize p ->
  (JsSet.size (selectedItems s) <= fuel)%nat ->
  exists s' w' tr,
    handleDelete p client fuel s w = Some (s', w', tr) /\
    let chunks := batchesOf tr in
    let N := Z.of_nat (JsSet.size (selectedItems s)) in
    let k := Z.of_nat (length chunks) in
    k = ceilDiv N (batchSize p) /\
    (k - 1) * batchSize p < N <= k * batchSize p /\
    Forall (fun b => Z.of_nat (length b) <= batchSize p) chunks /\
    concat chunks = JsSet.toArray (selectedItems s).
Proof.
  intros HB Hfuel. unfold JsSet.size, JsSet.toArray in *.
  destruct (selectedItems s) as [|x l] eqn:Hsel.
  - exists s, w, []. unfold handleDelete, JsSet.size. rewrite Hsel.
    cbn [length Nat.eqb batchesOf concat Z.of_nat].
    rewrite ceilDiv_zero by lia.
    repeat split; auto; lia.
  - destruct (handleDelete_run p client fuel s w HB) as (r & new & Hseg & Hrun);
      [congruence | rewrite Hsel; exact Hfuel |].
    rewrite Hsel in Hseg.
    destruct Hseg as (_ & Hcat & Hall & Hcount & _).
    rewrite Hrun. eexists _, _, _. split; [reflexivity|].
    cbv zeta. rewrite batchesOf_app, batchesOf_optionalCall, app_nil_r.
    rewrite Z.sub_0_r in Hcount.
    rewrite Z.max_r in Hcount by lia.
    split; [exact Hcount|].
    split; [|split; [exact Hall | exact Hcat]].
    rewrite Hcount. apply ceilDiv_bounds; lia.
Qed.

Lemma handleDelete_partition_witness :
  1 <= batchSize liveProps /\
  (JsSet.size (selectedItems fiveSelected) <= 5)%nat /\
  exists s' w' tr,
    handleDelete liveProps flakyClient 5 fiveSelected 0%nat = Some (s', w', tr) /\
    let chunks := batchesOf tr in
    let N := Z.of_nat (JsSet.size (selectedItems fiveSelected)) in
    let k := Z.of_nat (length chunks) in
    k = ceilDiv N (batchSize liveProps) /\
    (k - 1) * batchSize liveProps < N <= k * batchSize liveProps /\
    Forall (fun b => Z.of_nat (length b) <= batchSize liveProps) chunks /\
    concat chunks = JsSet.toArray (selectedItems fiveSelected).
Proof.
  split; [simpl; lia|]. split; [simpl; lia|].
  apply (handleDelete_partition liveProps flakyClient 5 fiveSelected 0%nat);
    simpl; lia.
Defined.

(** The example of the specification: 25 identifiers in batches of 10 go
    out as 10, 10 and 5. *)
Example batches_of_25_by_10 :
  let sel := map (fun n => Js.showNat n) (seq 1 25) in
  let p := mkProps [] false false 10 false 100 in
  match handleDelete p flakyClient 25 (setSelectedItems sel initialState) 0%nat with
  | Some (_, _, tr) => map (@length string) (batchesOf tr) = [10; 10; 5]%nat
  | None => False
  end.
Proof. vm_compute. reflexivity. Qed.

(** C10.  With an empty selection [handleDelete] returns at once: the state
    and the store are as before and no call was made, so nothing reached
    the store and the completion callback was not invoked. *)
Theorem handleDelete_empty_selection {Store} (p : Props)
    (client : Client Store) (fuel : nat) (s : State) (w : Store) :
  JsSet.size (selectedItems s) = 0%nat ->
  handleDelete p client fuel s w = Some (s, w, []).
Proof.
  intros Hempty. unfold handleDelete. rewrite Hempty. reflexivity.
Qed.

Lemma handleDelete_empty_selection_witness :
  JsSet.size (selectedItems initialState) = 0%nat /\
  handleDelete liveProps flakyClient 0 initialState 0%nat
  = Some (initialState, 0%nat, []).
Proof.
  split; [reflexivity|].
  apply (handleDelete_empty_selection liveProps flakyClient 0 initialState 0%nat).
  reflexivity.
Defined.

Lemma length_rejections (cs : list (list string * Outcome unit)) :
  forall k, length (rejections k cs) = length (filter isRejected cs).
Proof.
  induction cs as [|[b [u|e]] cs IH]; intros k; simpl;
    [reflexivity | apply IH | f_equal; apply IH].
Qed.

Lemma rejections_nth (cs : list (list string * Outcome unit)) :
  forall (k : nat) (k0 : Z) batch e,
    nth_error cs k = Some (batch, Rejected e) ->
    In ("Batch " ++ Js.showZ (k0 + Z.of_nat k) ++ ": "
                 ++ Js.messageOr "Unknown error" e)%string
       (rejections k0 cs).
Proof.
  induction cs as [|[b o] cs IH]; intros k k0 batch e Hnth;
    [destruct k; discriminate|].
  destruct k as [|k].
  - injection Hnth as -> ->. cbn [rejections]. left.
    rewrite Z.add_0_r. reflexivity.
  - cbn [nth_error] in Hnth.
    replace (k0 + Z.of_nat (S k)) with ((k0 + 1) + Z.of_nat k) by lia.
    destruct o as [u|e0]; cbn [rejections];
      [|right]; apply (IH k (k0 + 1) batch e Hnth).
Qed.

(** In a live run each recorded outcome is the answer of the store to that
    batch, the store being left by one batch as the next one finds it. *)
Lemma deleteLoop_replay {Store} (p : Props) (client : Client Store)
    (items : list string) (fuel : nat) :
  dryRun p = false ->
  forall (i : Z) (r r' : Run),
    deleteLoop p client fuel items i r = Some r' ->
    exists cs,
      commitsOf (calls r') = commitsOf (calls r) ++ cs /\
      replay client (world r) (map fst cs) = (cs, world r').
Proof.
  intros Hlive. induction fuel as [|fuel IH]; intros i r r'; simpl;
    destruct (i <? Z.of_nat (length items)); try discriminate;
    try (intros H; injection H as <-; exists []; split;
         [symmetry; apply app_nil_r | reflexivity]).
  intros H. apply IH in H. destruct H as (cs & Hcalls & Hreplay).
  unfold deleteBatch in Hcalls, Hreplay. rewrite Hlive in Hcalls, Hreplay.
  set (b := Js.slice items i (i + batchSize p)) in *.
  destruct (commit client (world r) b) as [[[]|e] w1] eqn:Hcommit;
    cbn [calls world] in Hcalls, Hreplay;
    rewrite commitsOf_app in Hcalls; cbn [commitsOf] in Hcalls;
    rewrite <- app_assoc in Hcalls.
  - exists ((b, Resolved tt) :: cs). split; [exact Hcalls|].
    cbn [map fst replay]. rewrite Hcommit, Hreplay. reflexivity.
  - exists ((b, Rejected e) :: cs). split; [exact Hcalls|].
    cbn [map fst replay]. rewrite Hcommit, Hreplay. reflexivity.
Qed.

Lemma handleDelete_replay {Store} (p : Props) (client : Client Store)
    (fuel : nat) (s : State) (w : Store) s' w' tr :
  dryRun p = false ->
  handleDelete p client fuel s w = Some (s', w', tr) ->
  replay client w (map fst (commitsOf tr)) = (commitsOf tr, w').
Proof.
  intros Hlive. unfold handleDelete.
  destruct (JsSet.size (selectedItems s) =? 0)%nat.
  - intros H. injection H as _ <- <-. reflexivity.
  - destruct (deleteLoop _ _ _ _ _ _) as [r|] eqn:Hloop; [|discriminate].
    apply (deleteLoop_replay p client _ fuel Hlive) in Hloop.
    destruct Hloop as (cs & Hcalls & Hreplay).
    cbn [calls world commitsOf app] in Hcalls, Hreplay.
    intros H. injection H as _ <- <-.
    rewrite commitsOf_app, commitsOf_optionalCall, app_nil_r, Hcalls.
    exact Hreplay.
Qed.

(** C2.  A live run over a non-empty selection with B >= 1 sends every
    batch to the store, in order, whatever the store answered to the
    batches before it: the outcomes [cs] of the run are the answers of the
    store itself ([replay]), batch by batch.  The deleted total counts the
    items of the batches the store committed only, so a batch the store
    rejected adds nothing; the error list holds one message per rejected
    batch, tagged with the position of that batch, in order.  Both are what
    the final status line and the completion callback carry.  When the
    store commits the first of three batches, rejects the second and
    commits the third, the total is the size of the first plus the size of
    the third, and the only error is the one of batch 2. *)
Theorem live_run_chunk_failures {Store} (p : Props) (client : Client Store)
    (fuel : nat) (s : State) (w : Store) :
  dryRun p = false ->
  1 <= batchSize p ->
  selectedItems s <> [] ->
  (JsSet.size (selectedItems s) <= fuel)%nat ->
  exists s' w' cs deleted errs,
    handleDelete p client fuel s w
    = Some (s', w', map commitEvent cs
                    ++ optionalCall (onComplete p) (OnComplete deleted errs)) /\
    replay client w (map fst cs) = (cs, w') /\
    message s' = finalMessage p deleted errs /\
    deleted = committedItems cs /\
    errs = rejections 1 cs /\
    concat (map fst cs) = JsSet.toArray (selectedItems s) /\
    Z.of_nat (length cs)
      = ceilDiv (Z.of_nat (JsSet.size (selectedItems s))) (batchSize p) /\
    (forall k batch e,
        nth_error cs k = Some (batch, Rejected e) ->
        In ("Batch " ++ Js.showZ (Z.of_nat k + 1) ++ ": "
                     ++ Js.messageOr "Unknown error" e)%string errs) /\
    length errs = length (filter isRejected cs) /\
    (forall c1 c2 c3 e w1 w2 w3,
        commit client w c1 = (Resolved tt, w1) ->
        commit client w1 c2 = (Rejected e, w2) ->
        commit client w2 c3 = (Resolved tt, w3) ->
        map fst cs = [c1; c2; c3] ->
        deleted = (length c1 + length c3)%nat /\
        errs = [("Batch 2: " ++ Js.messageOr "Unknown error" e)%string]).
Proof.
  intros Hlive HB Hne Hfuel. unfold JsSet.size, JsSet.toArray in *.
  destruct (handleDelete_run p client fuel s w HB Hne Hfuel)
    as (r & new & Hseg & Hrun).
  destruct Hseg as (_ & Hcat & _ & Hcount & _ & Hmode).
  rewrite Hlive in Hmode. destruct Hmode as (Hnew & Hfst & Hdel & Herr).
  cbn [deletedCount errors app Nat.add] in Hdel, Herr.
  rewrite Zdiv_0_l in Herr. cbn [Z.add] in Herr.
  rewrite Z.sub_0_r, Z.max_r in Hcount by lia.
  rewrite Hfst in Hcat, Hcount. rewrite length_map in Hcount.
  cbn [Z.to_nat skipn] in Hcat.
  pose proof (handleDelete_replay p client fuel s w _ _ _ Hlive Hrun)
    as Hreplay.
  rewrite commitsOf_app, commitsOf_optionalCall, app_nil_r in Hreplay.
  rewrite Hrun.
  eexists _, (world r), (commitsOf new), (deletedCount r), (errors r).
  split; [rewrite <- Hnew; reflexivity|].
  split; [exact Hreplay|].
  split; [reflexivity|].
  split; [exact Hdel|].
  split; [exact Herr|].
  split; [exact Hcat|].
  split; [exact Hcount|].
  split; [|split].
  - intros k batch e Hnth. rewrite Herr.
    replace (Z.of_nat k + 1) with (1 + Z.of_nat k) by lia.
    apply (rejections_nth (commitsOf new) k 1 batch e Hnth).
  - rewrite Herr. apply length_rejections.
  - intros c1 c2 c3 e w1 w2 w3 H1 H2 H3 Hcs.
    rewrite Hcs in Hreplay. cbn [replay] in Hreplay.
    rewrite H1, H2, H3 in Hreplay. injection Hreplay as Hcs' _.
    rewrite Hdel, Herr, <- Hcs'. cbn. split; [f_equal; lia | reflexivity].
Qed.

Lemma live_run_chunk_failures_witness :
  dryRun liveProps = false /\
  1 <= batchSize liveProps /\
  selectedItems fiveSelected <> [] /\
  (JsSet.size (selectedItems fiveSelected) <= 5)%nat /\
  commit flakyClient 0%nat ["a"; "b"] = (Resolved tt, 1%nat) /\
  commit flakyClient 1%nat ["c"; "d"]
  = (Rejected (Js.ErrorObject "conflict"), 2%nat) /\
  commit flakyClient 2%nat ["e"] = (Resolved tt, 3%nat) /\
  exists s' w' cs deleted errs,
    handleDelete liveProps flakyClient 5 fiveSelected 0%nat
    = Some (s', w', map commitEvent cs
                    ++ optionalCall (onComplete liveProps)
                         (OnComplete deleted errs)) /\
    replay flakyClient 0%nat (map fst cs) = (cs, w') /\
    map fst cs = [["a"; "b"]; ["c"; "d"]; ["e"]] /\
    deleted = 3%nat /\
    errs = ["Batch 2: conflict"].
Proof.
  split; [reflexivity|]. split; [simpl; lia|].
  split; [discriminate|]. split; [simpl; lia|].
  split; [reflexivity|]. split; [reflexivity|]. split; [reflexivity|].
  destruct (live_run_chunk_failures liveProps flakyClient 5 fiveSelected 0%nat)
    as (s' & w' & cs & deleted & errs & Hrun & Hreplay & _ & _ & _ & _ & _
        & _ & _ & Hthree);
    [reflexivity | simpl; lia | discriminate | simpl; lia |].
  exists s', w', cs, deleted, errs.
  split; [exact Hrun|]. split; [exact Hreplay|].
  assert (Hcs : map fst cs = [["a"; "b"]; ["c"; "d"]; ["e"]]).
  { clear Hthree Hreplay. vm_compute in Hrun. injection Hrun as _ _ Htr.
    destruct cs as [|[b1 o1] [|[b2 o2] [|[b3 o3] [|c4 cs]]]];
      try discriminate Htr.
    injection Htr as -> _ -> _ -> _ _ _. reflexivity. }
  split; [exact Hcs|].
  exact (Hthree ["a"; "b"] ["c"; "d"] ["e"] (Js.ErrorObject "conflict")
           1%nat 2%nat 3%nat eq_refl eq_refl eq_refl Hcs).
Defined.

(** The run of the specification's example, evaluated: batches of two over
    five identifiers, the second transaction rejected. *)
Example live_run_second_of_three_fails :
  handleDelete liveProps flakyClient 5 fiveSelected 0%nat
  = Some (mkState "post" "all" [doc "f" "post"] [] false false false ["post"]
                  EmptyString false "Successfully deleted 3 items (1 errors)",
          3%nat,
          [Commit ["a"; "b"] (Resolved tt);
           Commit ["c"; "d"] (Rejected (Js.ErrorObject "conflict"));
           Commit ["e"] (Resolved tt);
           OnComplete 3 ["Batch 2: conflict"]]).
Proof. vm_compute. reflexivity. Qed.

(** C3, as the code has it.  In preview mode with B >= 1 no transaction is
    ever sent and the store is left as it was.  Over a non-empty selection
    of size N the run logs its batches and reports N deleted items with an
    empty error list, in the final status line and to the completion
    callback when there is one.  Over the empty selection it returns at
    once and reports nothing. *)
Theorem preview_run {Store} (p : Props) (client : Client Store)
    (fuel : nat) (s : State) (w : Store) :
  dryRun p = true ->
  1 <= batchSize p ->
  (JsSet.size (selectedItems s) <= fuel)%nat ->
  exists s' tr,
    handleDelete p client fuel s w = Some (s', w, tr) /\
    commitsOf tr = [] /\
    (selectedItems s <> [] ->
       let N := JsSet.size (selectedItems s) in
       Reports p client fuel s w N [] /\
       tr = map ConsoleLogDryRun (batchesOf tr)
            ++ optionalCall (onComplete p) (OnComplete N []) /\
       message s'
       = ("DRY RUN: Would delete " ++ Js.showNat N ++ " items")%string) /\
    (selectedItems s = [] -> s' = s /\ tr = []).
Proof.
  intros Hdry HB Hfuel. unfold JsSet.size in *.
  destruct (selectedItems s) as [|x l] eqn:Hsel.
  - exists s, []. unfold handleDelete, JsSet.size. rewrite Hsel.
    split; [reflexivity|]. split; [reflexivity|].
    split; [intros Hne; congruence | intros _; split; reflexivity].
  - destruct (handleDelete_run p client fuel s w HB) as (r & new & Hseg & Hrun);
      [congruence | rewrite Hsel; exact Hfuel |].
    rewrite Hsel in Hseg.
    destruct Hseg as (_ & _ & _ & _ & _ & Hmode).
    rewrite Hdry in Hmode. destruct Hmode as (Hnew & Hdel & Herr & Hw).
    cbn [deletedCount errors world skipn Z.to_nat Nat.add] in Hdel, Herr, Hw.
    rewrite Hdel, Herr, Hw in Hrun.
    eexists _, _. split; [exact Hrun|].
    rewrite commitsOf_app, commitsOf_optionalCall, app_nil_r.
    rewrite batchesOf_app, batchesOf_optionalCall, app_nil_r.
    split; [rewrite Hnew; apply commitsOf_batches|].
    split; [|intros H; discriminate].
    intros _. cbv zeta. split; [|split].
    + unfold Reports. eexists _, _, _. split; [exact Hrun|].
      right. reflexivity.
    + rewrite <- Hnew. reflexivity.
    + cbn [message]. unfold finalMessage. rewrite Hdry. reflexivity.
Qed.

Lemma preview_run_witness :
  dryRun previewProps = true /\
  1 <= batchSize previewProps /\
  (JsSet.size (selectedItems fiveSelected) <= 5)%nat /\
  exists s' tr,
    handleDelete previewProps flakyClient 5 fiveSelected 0%nat
    = Some (s', 0%nat, tr) /\
    commitsOf tr = [] /\
    (selectedItems fiveSelected <> [] ->
       let N := JsSet.size (selectedItems fiveSelected) in
       Reports previewProps flakyClient 5 fiveSelected 0%nat N [] /\
       tr = map ConsoleLogDryRun (batchesOf tr)
            ++ optionalCall (onComplete previewProps) (OnComplete N []) /\
       message s'
       = ("DRY RUN: Would delete " ++ Js.showNat N ++ " items")%string) /\
    (selectedItems fiveSelected = [] -> s' = fiveSelected /\ tr = []).
Proof.
  split; [reflexivity|]. split; [simpl; lia|]. split; [simpl; lia|].
  apply (preview_run previewProps flakyClient 5 fiveSelected 0%nat);
    [reflexivity | simpl; lia | simpl; lia].
Defined.

(** C3 as stated fails on the empty selection: a preview over it reports
    nothing, neither to the completion callback nor in the status line. *)
Lemma preview_empty_selection_reports_nothing :
  ~ Reports previewProps flakyClient 1 initialState 0%nat
      (JsSet.size (selectedItems initialState)) [].
Proof.
  intros (s' & w' & tr & Hrun & Hrep).
  vm_compute in Hrun. inversion Hrun; subst; clear Hrun.
  destruct Hrep as [Hin | Hmsg].
  - exact Hin.
  - vm_compute in Hmsg. discriminate Hmsg.
Qed.

(** C4.  A run over a non-empty selection with B >= 1 gets through all of
    its batches, whichever of them the store rejects.  Afterwards the
    result list is the old one without the documents whose identifier was
    selected, so no selected identifier is left in it, the selection is
    empty, and the completion callback has been called exactly once, with
    the deleted count and the error list of the run ([onComplete] is an
    optional prop: without it there is no callback and no call). *)
Theorem handleDelete_finishes {Store} (p : Props) (client : Client Store)
    (fuel : nat) (s : State) (w : Store) :
  1 <= batchSize p ->
  selectedItems s <> [] ->
  (JsSet.size (selectedItems s) <= fuel)%nat ->
  exists s' w' tr deleted errs,
    handleDelete p client fuel s w = Some (s', w', tr) /\
    searchResults s'
    = filter (fun item => negb (JsSet.has (selectedItems s) (_id item)))
             (searchResults s) /\
    (forall id, In id (selectedItems s) -> ~ In id (ids (searchResults s'))) /\
    (forall item, In item (searchResults s) ->
                  ~ In (_id item) (selectedItems s) ->
                  In item (searchResults s')) /\
    selectedItems s' = JsSet.empty /\
    completionsOf tr = (if onComplete p then [(deleted, errs)] else []) /\
    message s' = finalMessage p deleted errs /\
    concat (batchesOf tr) = JsSet.toArray (selectedItems s) /\
    if dryRun p then
      deleted = JsSet.size (selectedItems s) /\ errs = []
    else
      deleted = committedItems (commitsOf tr) /\
      errs = rejections 1 (commitsOf tr).
Proof.
  intros HB Hne Hfuel. unfold JsSet.size, JsSet.toArray in *.
  destruct (handleDelete_run p client fuel s w HB Hne Hfuel)
    as (r & new & Hseg & Hrun).
  destruct Hseg as (_ & Hcat & _ & _ & _ & Hmode).
  cbn [Z.to_nat skipn] in Hcat, Hmode.
  rewrite Hrun.
  eexists _, _, _, (deletedCount r), (errors r).
  split; [reflexivity|]. cbn [searchResults selectedItems message].
  split; [reflexivity|].
  split; [|split; [|split; [reflexivity|]]].
  - intros id Hid Hin. unfold ids in Hin. apply in_map_iff in Hin.
    destruct Hin as (item & Heq & Hitem). apply filter_In in Hitem.
    destruct Hitem as [_ Hneg]. apply negb_true_iff, has_false in Hneg.
    subst id. contradiction.
  - intros item Hitem Hout. apply filter_In. split; [exact Hitem|].
    apply negb_true_iff, has_false. exact Hout.
  - rewrite completionsOf_app, commitsOf_app, batchesOf_app.
    rewrite completionsOf_optionalCall, commitsOf_optionalCall,
      batchesOf_optionalCall, !app_nil_r.
    destruct (dryRun p).
    + destruct Hmode as (Hnew & Hdel & Herr & _).
      cbn [deletedCount errors Nat.add] in Hdel, Herr.
      rewrite Hnew at 1. rewrite completionsOf_batches.
      repeat split; auto.
    + destruct Hmode as (Hnew & _ & Hdel & Herr).
      cbn [deletedCount errors Nat.add app] in Hdel, Herr.
      rewrite Zdiv_0_l in Herr. cbn [Z.add] in Herr.
      rewrite Hnew at 1. rewrite completionsOf_commits.
      repeat split; auto.
Qed.

Lemma handleDelete_finishes_witness :
  1 <= batchSize liveProps /\
  selectedItems fiveSelected <> [] /\
  (JsSet.size (selectedItems fiveSelected) <= 5)%nat /\
  exists s' w' tr deleted errs,
    handleDelete liveProps flakyClient 5 fiveSelected 0%nat
    = Some (s', w', tr) /\
    searchResults s'
    = filter (fun item =>
                negb (JsSet.has (selectedItems fiveSelected) (_id item)))
             (searchResults fiveSelected) /\
    (forall id, In id (selectedItems fiveSelected) ->
                ~ In id (ids (searchResults s'))) /\
    (forall item, In item (searchResults fiveSelected) ->
                  ~ In (_id item) (selectedItems fiveSelected) ->
                  In item (searchResults s')) /\
    selectedItems s' = JsSet.empty /\
    completionsOf tr
    = (if onComplete liveProps then [(deleted, errs)] else []) /\
    message s' = finalMessage liveProps deleted errs /\
    concat (batchesOf tr) = JsSet.toArray (selectedItems fiveSelected) /\
    if dryRun liveProps then
      deleted = JsSet.size (selectedItems fiveSelected) /\ errs = []
    else
      deleted = committedItems (commitsOf tr) /\
      errs = rejections 1 (commitsOf tr).
Proof.
  split; [simpl; lia|]. split; [discriminate|]. split; [simpl; lia|].
  apply (handleDelete_finishes liveProps flakyClient 5 fiveSelected 0%nat);
    [simpl; lia | discriminate | simpl; lia].
Defined.

(** ** The selection tracker *)

Lemma mem_In (x : string) (l : list string) : mem x l = true <-> In x l.
Proof. exact (has_In l x). Qed.

Lemma toggle_flips (id : string) (s : State) :
  JsSet.has (selectedItems (toggleItemSelection id s)) id
  = negb (JsSet.has (selectedItems s) id).
Proof.
  unfold toggleItemSelection. cbn [selectedItems setSelectedItems].
  destruct (JsSet.has (selectedItems s) id) eqn:Hhas; cbn [negb].
  - apply has_false. rewrite In_delete. intros [_ Hne]. congruence.
  - apply has_In. rewrite In_add. right. reflexivity.
Qed.

Lemma handleSearch_selection {Store} (p : Props) (client : Client Store)
    (s : State) (w : Store) :
  let s' := fst (fst (handleSearch p client s w)) in
  (searchResults s' = searchResults s /\ selectedItems s' = selectedItems s)
  \/ selectedItems s' = [].
Proof.
  unfold handleSearch.
  destruct (searchRejected s); [left; split; reflexivity|].
  destruct (fetch client w (buildQuery p s)) as [[results|e] w'].
  - right. destruct (lengthText results); reflexivity.
  - left. split; reflexivity.
Qed.

Lemma handleDelete_selection {Store} (p : Props) (client : Client Store)
    (fuel : nat) (s : State) (w : Store) s' w' tr :
  handleDelete p client fuel s w = Some (s', w', tr) ->
  s' = s \/ selectedItems s' = [].
Proof.
  unfold handleDelete.
  destruct (JsSet.size (selectedItems s) =? 0)%nat.
  - intros H. injection H as <- _ _. left. reflexivity.
  - destruct (deleteLoop _ _ _ _ _ _) as [r|]; [|discriminate].
    intros H. injection H as <- _ _. right. reflexivity.
Qed.

Lemma dispatch_preserves {Store} (p : Props) (client : Client Store)
    (a : Action) (s : State) (w : Store) s' w' tr :
  SelectionWithinResults s ->
  dispatch p client a s w = Some (s', w', tr) ->
  SelectionWithinResults s'.
Proof.
  intros Hinv. unfold dispatch.
  destruct (enabled s a) eqn:Hen; [|discriminate].
  destruct a; cbn [enabled] in Hen;
    try (intros H; injection H as <- _ _; exact Hinv).
  - (* Mount *)
    intros H. injection H as Hs. unfold loadAvailableTypes in Hs.
    destruct (0 <? length (documentTypes p))%nat;
      [|destruct (fetchTypes client w) as [[types|e] w1]];
      injection Hs as <- _ _; exact Hinv.
  - (* ClickSearch *)
    intros H. injection H as Hs.
    pose proof (handleSearch_selection p client s w) as Hsel.
    cbv zeta in Hsel.
    destruct (handleSearch p client s w) as [[s1 w1] tr1].
    cbn [fst] in Hsel. injection Hs as <- _ _.
    destruct Hsel as [[Hr Hs] | Hs]; intros x Hx.
    + rewrite Hr. apply Hinv. rewrite <- Hs. exact Hx.
    + rewrite Hs in Hx. contradiction.
  - (* ClickCheckbox *)
    intros H. injection H as <- _ _. apply mem_In in Hen.
    intros x. unfold toggleItemSelection.
    cbn [selectedItems searchResults setSelectedItems].
    destruct (JsSet.has (selectedItems s) id).
    + rewrite In_delete. intros [Hx _]. apply Hinv. exact Hx.
    + rewrite In_add. intros [Hx | ->]; [apply Hinv; exact Hx | exact Hen].
  - (* ClickSelectAll *)
    intros H. injection H as <- _ _. intros x. unfold selectAll.
    cbn [selectedItems searchResults setSelectedItems].
    rewrite In_ofList. auto.
  - (* ClickClear *)
    intros H. injection H as <- _ _. intros x Hx. contradiction.
  - (* ConfirmDelete *)
    intros H. apply handleDelete_selection in H.
    destruct H as [-> | Hs]; [exact Hinv|].
    intros x Hx. rewrite Hs in Hx. contradiction.
Qed.

Lemma session_preserves {Store} (p : Props) (client : Client Store)
    (actions : list Action) : forall (s : State) (w : Store) s' w' tr,
  SelectionWithinResults s ->
  session p client actions s w = Some (s', w', tr) ->
  SelectionWithinResults s'.
Proof.
  induction actions as [|a rest IH]; intros s w s' w' tr Hinv; simpl.
  - intros H. injection H as <- _ _. exact Hinv.
  - destruct (dispatch p client a s w) as [[[s1 w1] tr1]|] eqn:Hd;
      [|discriminate].
    destruct (session p client rest s1 w1) as [[[s2 w2] tr2]|] eqn:Hrest;
      [|discriminate].
    intros H. injection H as <- _ _.
    eapply IH; [|exact Hrest].
    eapply dispatch_preserves; [exact Hinv | exact Hd].
Qed.

(** C5, as the code has it.  [toggleItemSelection] flips the membership of
    the identifier it is given and does not look at the result list.  The
    rendered check boxes only ever pass identifiers of the current result
    list: in every state that a session of rendered controls reaches from
    the initial state, the selection lies within the identifiers of the
    result list. *)
Theorem selection_within_results {Store} (p : Props) (client : Client Store) :
  (forall id s,
      JsSet.has (selectedItems (toggleItemSelection id s)) id
      = negb (JsSet.has (selectedItems s) id) /\
      searchResults (toggleItemSelection id s) = searchResults s) /\
  (forall actions w s' w' tr,
      session p client actions initialState w = Some (s', w', tr) ->
      SelectionWithinResults s').
Proof.
  split.
  - intros id s. split; [apply toggle_flips | reflexivity].
  - intros actions w s' w' tr Hrun.
    eapply session_preserves; [|exact Hrun].
    intros x Hx. contradiction.
Qed.

Lemma selection_within_results_witness :
  let s' := mkState "post" "all" sixPosts ["a"; "c"; "d"; "e"; "f"]
                    false false false [] EmptyString false
                    "Found 6 documents" in
  let query := buildQuery previewProps (setSearchQuery "post" initialState) in
  session previewProps archiveClient sampleSession initialState sixPosts
  = Some (s', sixPosts, [ConsoleLogQuery query; Fetch query]) /\
  SelectionWithinResults s'.
Proof.
  cbv zeta. split; [vm_compute; reflexivity|].
  apply (proj2 (selection_within_results previewProps archiveClient)
           sampleSession sixPosts _ sixPosts
           [ConsoleLogQuery
              (buildQuery previewProps (setSearchQuery "post" initialState));
            Fetch
              (buildQuery previewProps (setSearchQuery "post" initialState))]).
  vm_compute. reflexivity.
Defined.

(** C5 as stated fails: toggling an identifier that is not in the result
    list adds it to the selection. *)
Lemma toggle_adds_unlisted_id :
  searchResults (toggleItemSelection "ghost" initialState) = [] /\
  selectedItems (toggleItemSelection "ghost" initialState) = ["ghost"] /\
  ~ SelectionWithinResults (toggleItemSelection "ghost" initialState).
Proof.
  split; [reflexivity|]. split; [reflexivity|].
  intros Hinv. apply (Hinv "ghost"). left. reflexivity.
Qed.

(** ** The search executor *)

Lemma truthy_nonempty (t : string) : Js.truthy t = true <-> t <> EmptyString.
Proof. destruct t; simpl; split; congruence. Qed.

(** C6.  With a blank search term and custom-query mode off, [handleSearch]
    only sets the status message: it makes no call at all, so no read
    reaches the store, and the result list and the selection are as
    before. *)
Theorem search_gate {Store} (p : Props) (client : Client Store)
    (s : State) (w : Store) :
  Js.trim (searchQuery s) = EmptyString ->
  useCustomQuery s = false ->
  let s' := setMessage "Please enter a search term or use custom query" s in
  handleSearch p client s w = (s', w, []) /\
  searchResults s' = searchResults s /\
  selectedItems s' = selectedItems s.
Proof.
  intros Hblank Hoff. cbv zeta. unfold handleSearch, searchRejected.
  rewrite Hblank, Hoff. repeat split.
Qed.

Lemma search_gate_witness :
  Js.trim (searchQuery blankSearch) = EmptyString /\
  useCustomQuery blankSearch = false /\
  let s' := setMessage "Please enter a search term or use custom query"
                       blankSearch in
  handleSearch liveProps flakyClient blankSearch 0%nat = (s', 0%nat, []) /\
  searchResults s' = searchResults blankSearch /\
  selectedItems s' = selectedItems blankSearch.
Proof.
  split; [reflexivity|]. split; [reflexivity|].
  apply (search_gate liveProps flakyClient blankSearch 0%nat); reflexivity.
Defined.

(** C9.  When the search is let through, [handleSearch] sends one read.  If
    the read is rejected, the error message goes into the status line and
    to the error callback ([onError] is an optional prop: without it there
    is no callback and no call), and the result list and the selection are
    as before.  If the read resolves, the whole result list is replaced:
    by the documents that came back when they came as an array, by the
    empty list otherwise; and the selection is emptied. *)
Theorem handleSearch_outcome {Store} (p : Props) (client : Client Store)
    (s : State) (w : Store) :
  searchRejected s = false ->
  let query := buildQuery p s in
  (forall e w',
      fetch client w query = (Rejected e, w') ->
      let msg := Js.messageOr "Search failed" e in
      exists s' tr,
        handleSearch p client s w = (s', w', tr) /\
        fetchesOf tr = [query] /\
        errorReportsOf tr = (if onError p then [msg] else []) /\
        message s' = ("Search error: " ++ msg)%string /\
        searchResults s' = searchResults s /\
        selectedItems s' = selectedItems s) /\
  (forall results w',
      fetch client w query = (Resolved results, w') ->
      exists s' tr,
        handleSearch p client s w = (s', w', tr) /\
        fetchesOf tr = [query] /\
        searchResults s'
        = match results with
          | VArray docs => docs
          | VNullish _ => []
          | VOther _ => []
          end /\
        selectedItems s' = JsSet.empty /\
        (forall docs, results = VArray docs ->
                      searchResults s' = docs /\
                      errorReportsOf tr = [] /\
                      message s'
                      = ("Found " ++ Js.showNat (length docs)
                                  ++ " documents")%string)).
Proof.
  intros Hopen. cbv zeta. unfold handleSearch. rewrite Hopen. split.
  - intros e w' Hfetch. rewrite Hfetch. unfold searchFailed.
    eexists _, _. split; [reflexivity|].
    destruct (onError p); repeat split.
  - intros results w' Hfetch. rewrite Hfetch.
    destruct results as [docs|msg|txt]; cbn [lengthText asArray].
    + eexists _, _. split; [reflexivity|].
      split; [reflexivity|]. split; [reflexivity|]. split; [reflexivity|].
      intros docs' Heq. injection Heq as <-. repeat split.
    + unfold searchFailed. eexists _, _. split; [reflexivity|].
      split; [destruct (onError p); reflexivity|].
      split; [reflexivity|]. split; [reflexivity|].
      intros docs Heq. discriminate Heq.
    + eexists _, _. split; [reflexivity|].
      split; [reflexivity|]. split; [reflexivity|]. split; [reflexivity|].
      intros docs Heq. discriminate Heq.
Qed.

Lemma handleSearch_outcome_witness :
  (searchRejected fiveSelected = false /\
   fetch flakyClient 0%nat (buildQuery liveProps fiveSelected)
   = (Rejected (Js.ErrorObject "timeout"), 1%nat) /\
   exists s' tr,
     handleSearch liveProps flakyClient fiveSelected 0%nat = (s', 1%nat, tr) /\
     fetchesOf tr = [buildQuery liveProps fiveSelected] /\
     errorReportsOf tr = (if onError liveProps then ["timeout"] else []) /\
     message s' = "Search error: timeout" /\
     searchResults s' = searchResults fiveSelected /\
     selectedItems s' = selectedItems fiveSelected) /\
  (searchRejected postsOnly = false /\
   fetch archiveClient [doc "x" "post"; doc "y" "post"]
         (buildQuery liveProps postsOnly)
   = (Resolved (VArray [doc "x" "post"; doc "y" "post"]),
      [doc "x" "post"; doc "y" "post"]) /\
   exists s' tr,
     handleSearch liveProps archiveClient postsOnly
                  [doc "x" "post"; doc "y" "post"]
     = (s', [doc "x" "post"; doc "y" "post"], tr) /\
     searchResults s' = [doc "x" "post"; doc "y" "post"] /\
     selectedItems s' = JsSet.empty /\
     message s' = "Found 2 documents").
Proof.
  split.
  - split; [reflexivity|]. split; [reflexivity|].
    destruct (handleSearch_outcome liveProps flakyClient fiveSelected 0%nat)
      as [Hfail _]; [reflexivity|].
    apply (Hfail (Js.ErrorObject "timeout") 1%nat). reflexivity.
  - split; [reflexivity|]. split; [reflexivity|].
    destruct (handleSearch_outcome liveProps archiveClient postsOnly
                [doc "x" "post"; doc "y" "post"]) as [_ Hok];
      [reflexivity|].
    destruct (Hok (VArray [doc "x" "post"; doc "y" "post"])
                  [doc "x" "post"; doc "y" "post"])
      as (s' & tr & Hrun & _ & _ & Hsel & Harr); [reflexivity|].
    destruct (Harr [doc "x" "post"; doc "y" "post"])
      as (Hres & _ & Hmsg); [reflexivity|].
    exists s', tr. split; [exact Hrun|]. split; [exact Hres|].
    split; [exact Hsel | exact Hmsg].
Defined.

(** A rejected read, evaluated: the six results and the five selected
    identifiers survive it. *)
Example search_rejected_keeps_results :
  let query := buildQuery liveProps fiveSelected in
  handleSearch liveProps flakyClient fiveSelected 0%nat
  = (setMessage "Search error: timeout" fiveSelected, 1%nat,
     [ConsoleLogQuery query; Fetch query;
      ConsoleErrorSearch (Js.ErrorObject "timeout"); OnError "timeout"]).
Proof. vm_compute. reflexivity. Qed.

(** ** The query builder *)

Lemma buildQuery_built (p : Props) (s : State) :
  customPath s = false ->
  buildQuery p s
  = ("*[" ++ Js.join " && " (conditions s)
          ++ windowAndProjection (maxResults p))%string.
Proof.
  intros Hpath. unfold buildQuery. rewrite Hpath.
  destruct (conditions s) as [|c cs]; reflexivity.
Qed.

(** C7, as the code has it.  When the custom-query path is not taken, the
    query is ["*["], the filter, and then the result window
    ["][0...<maxResults>]"] followed by the projection of the seven display
    fields [_id], [_type], [title], [name], [slug], [_createdAt] and
    [_updatedAt], written out below as the code writes them.  When the path
    is taken (flag set and custom text not blank), the query is the custom
    text as typed, with nothing added to it. *)
Theorem buildQuery_shape (p : Props) (s : State) :
  (customPath s = false ->
   buildQuery p s
   = ("*[" ++ Js.join " && " (conditions s)
           ++ "][0..." ++ Js.showZ (maxResults p) ++ "] {" ++ Js.LF
           ++ "      _id," ++ Js.LF
           ++ "      _type," ++ Js.LF
           ++ "      title," ++ Js.LF
           ++ "      name," ++ Js.LF
           ++ "      slug," ++ Js.LF
           ++ "      _createdAt," ++ Js.LF
           ++ "      _updatedAt" ++ Js.LF
           ++ "    }")%string /\
   CappedAndProjected p (buildQuery p s)) /\
  (customPath s = true -> buildQuery p s = customGroqQuery s).
Proof.
  split; intros Hpath.
  - split; [exact (buildQuery_built p s Hpath)|].
    exists (Js.join " && " (conditions s)).
    apply buildQuery_built. exact Hpath.
  - unfold buildQuery. rewrite Hpath. reflexivity.
Qed.

Lemma buildQuery_shape_witness :
  (customPath acmeSearch = false /\
   buildQuery defaultProps acmeSearch
   = ("*[" ++ Js.join " && " (conditions acmeSearch)
           ++ "][0..." ++ Js.showZ (maxResults defaultProps) ++ "] {" ++ Js.LF
           ++ "      _id," ++ Js.LF
           ++ "      _type," ++ Js.LF
           ++ "      title," ++ Js.LF
           ++ "      name," ++ Js.LF
           ++ "      slug," ++ Js.LF
           ++ "      _createdAt," ++ Js.LF
           ++ "      _updatedAt" ++ Js.LF
           ++ "    }")%string) /\
  (customPath customStar = true /\
   buildQuery defaultProps customStar = customGroqQuery customStar).
Proof.
  split.
  - split; [reflexivity|].
    apply (proj1 (buildQuery_shape defaultProps acmeSearch)). reflexivity.
  - split; [reflexivity|].
    apply (proj2 (buildQuery_shape defaultProps customStar)). reflexivity.
Defined.

(** C7 as stated fails on the custom-query path: the custom text comes back
    as typed, without result window and without projection. *)
Lemma custom_query_is_not_capped :
  buildQuery defaultProps customStar = "*" /\
  ~ CappedAndProjected defaultProps (buildQuery defaultProps customStar) /\
  ~ (exists filter,
        buildQuery defaultProps customStar
        = ("*[" ++ filter
                ++ "][0..." ++ Js.showZ (maxResults defaultProps) ++ "] {" ++ Js.LF
           ++ "      _id," ++ Js.LF
           ++ "      _type," ++ Js.LF
           ++ "      title," ++ Js.LF
           ++ "      name," ++ Js.LF
           ++ "      slug," ++ Js.LF
           ++ "      _createdAt," ++ Js.LF
           ++ "      _updatedAt" ++ Js.LF
           ++ "    }")%string).
Proof.
  split; [reflexivity|]. split.
  - intros (filter & Heq). vm_compute in Heq. discriminate Heq.
  - intros (filter & Heq). vm_compute in Heq. discriminate Heq.
Qed.

Lemma knownTypes_not_singleType (types : list string) (ty : string) :
  knownTypesCondition types <> singleTypeCondition ty.
Proof.
  unfold knownTypesCondition, singleTypeCondition. cbn. discriminate.
Qed.

Lemma knownTypes_not_text (types : list string) (term : string) :
  knownTypesCondition types <> textCondition term.
Proof.
  unfold knownTypesCondition, textCondition. cbn. discriminate.
Qed.

(** C8.  For a search term that is not blank, on the built path, the
    filter between ["*["] and ["]"] is the conditions joined by [" && "],
    and the conditions always hold the text condition: the lower-cased,
    trimmed term matched as a substring pattern against [lower(title)],
    [lower(name)], [lower(slug.current)] and the lower-cased part of the
    identifier after its first dot, joined by [||].  With a specific type
    chosen the conditions are exactly [_type == "<type>"] and the text
    condition, and no [_type in [...]] condition is among them.  With type
    "all" and no known types the text condition stands alone; with known
    types it follows [_type in ["t1", "t2", ...]]. *)
Theorem filter_conditions (p : Props) (s : State) :
  Js.trim (searchQuery s) <> EmptyString ->
  customPath s = false ->
  let term := Js.toLowerCase (Js.trim (searchQuery s)) in
  let pattern := (Js.DQ ++ ("*" ++ term ++ "*") ++ Js.DQ)%string in
  let text :=
    ("(" ++ Js.LF
         ++ ("        lower(title) match " ++ pattern) ++ " ||" ++ Js.LF
         ++ ("        lower(name) match " ++ pattern) ++ " ||" ++ Js.LF
         ++ ("        lower(slug.current) match " ++ pattern) ++ " ||" ++ Js.LF
         ++ ("        lower(string::split(string(_id), "
               ++ Js.DQ ++ "." ++ Js.DQ ++ ")[1]) match " ++ pattern) ++ Js.LF
         ++ "      )")%string in
  let single := ("_type == " ++ Js.DQ ++ selectedType s ++ Js.DQ)%string in
  let known := fun types : list string =>
    ("_type in ["
       ++ Js.join ", " (map (fun t => Js.DQ ++ t ++ Js.DQ) types)
       ++ "]")%string in
  (exists tail,
      buildQuery p s
      = ("*[" ++ Js.join " && " (conditions s) ++ "][0..." ++ tail)%string) /\
  In text (conditions s) /\
  (selectedType s <> "all"%string ->
   conditions s = [single; text] /\
   forall types, ~ In (known types) (conditions s)) /\
  (selectedType s = "all"%string -> availableTypes s = [] ->
   conditions s = [text]) /\
  (selectedType s = "all"%string -> availableTypes s <> [] ->
   conditions s = [known (availableTypes s); text]).
Proof.
  intros Hterm Hpath. cbv zeta.
  split.
  { rewrite (buildQuery_built p s Hpath). unfold windowAndProjection.
    eexists. cbn [String.append]. reflexivity. }
  apply truthy_nonempty in Hterm.
  unfold conditions, searchConditions, typeConditions. rewrite Hterm.
  destruct (String.eqb_spec (selectedType s) "all") as [Hall | Hone];
    cbn [negb].
  - destruct (availableTypes s) as [|t ts] eqn:Hav;
      cbn [length Nat.ltb Nat.leb app].
    + split; [left; reflexivity|].
      split; [intros H; contradiction|].
      split; [reflexivity|]. intros _ H. contradiction.
    + split; [right; left; reflexivity|].
      split; [intros H; contradiction|].
      split; [intros _ H; discriminate | reflexivity].
  - cbn [app]. split; [right; left; reflexivity|].
    split; [|split; intros H; contradiction].
    intros _. split; [reflexivity|].
    intros types [H | [H | []]]; symmetry in H.
    + exact (knownTypes_not_singleType types (selectedType s) H).
    + exact (knownTypes_not_text types
               (Js.toLowerCase (Js.trim (searchQuery s))) H).
Qed.

Lemma filter_conditions_witness :
  (Js.trim (searchQuery postsOnly) <> EmptyString /\
   customPath postsOnly = false /\
   selectedType postsOnly <> "all"%string /\
   conditions postsOnly
   = [("_type == " ++ Js.DQ ++ "post" ++ Js.DQ)%string;
      ("(" ++ Js.LF
          ++ ("        lower(title) match " ++ (Js.DQ ++ "*post*" ++ Js.DQ)) ++ " ||" ++ Js.LF
          ++ ("        lower(name) match " ++ (Js.DQ ++ "*post*" ++ Js.DQ)) ++ " ||" ++ Js.LF
          ++ ("        lower(slug.current) match " ++ (Js.DQ ++ "*post*" ++ Js.DQ)) ++ " ||"
          ++ Js.LF
          ++ ("        lower(string::split(string(_id), "
                ++ Js.DQ ++ "." ++ Js.DQ ++ ")[1]) match " ++ (Js.DQ ++ "*post*" ++ Js.DQ))
          ++ Js.LF
          ++ "      )")%string] /\
   forall types,
     ~ In ("_type in ["
             ++ Js.join ", " (map (fun t => Js.DQ ++ t ++ Js.DQ) types)
             ++ "]")%string
          (conditions postsOnly)) /\
  (Js.trim (searchQuery acmeSearch) <> EmptyString /\
   customPath acmeSearch = false /\
   selectedType acmeSearch = "all"%string /\
   availableTypes acmeSearch = [] /\
   conditions acmeSearch
   = [("(" ++ Js.LF
          ++ ("        lower(title) match " ++ (Js.DQ ++ "*acme*" ++ Js.DQ)) ++ " ||" ++ Js.LF
          ++ ("        lower(name) match " ++ (Js.DQ ++ "*acme*" ++ Js.DQ)) ++ " ||" ++ Js.LF
          ++ ("        lower(slug.current) match " ++ (Js.DQ ++ "*acme*" ++ Js.DQ)) ++ " ||"
          ++ Js.LF
          ++ ("        lower(string::split(string(_id), "
                ++ Js.DQ ++ "." ++ Js.DQ ++ ")[1]) match " ++ (Js.DQ ++ "*acme*" ++ Js.DQ))
          ++ Js.LF
          ++ "      )")%string]).
Proof.
  split.
  - split; [discriminate|]. split; [reflexivity|]. split; [discriminate|].
    destruct (filter_conditions liveProps postsOnly)
      as (_ & _ & Hone & _ & _); [discriminate | reflexivity |].
    apply Hone. discriminate.
  - split; [discriminate|]. split; [reflexivity|]. split; [reflexivity|].
    split; [reflexivity|].
    destruct (filter_conditions defaultProps acmeSearch)
      as (_ & _ & _ & Hall & _); [discriminate | reflexivity |].
    apply Hall; reflexivity.
Defined.

(** The example of the specification: type "all", no known types, term
    "acme" (typed with a capital and spaces around it). *)
Example acme_filter_is_text_only :
  conditions acmeSearch = [textCondition "acme"] /\
  buildQuery defaultProps acmeSearch
  = ("*[" ++ textCondition "acme" ++ windowAndProjection 100)%string.
Proof. split; vm_compute; reflexivity. Qed.

(** * Further properties of the component *)

(** ** Display titles *)

Lemma orElse_truthy (a : option string) (b : string) :
  Js.truthy b = true -> Js.truthy (orElse a b) = true.
Proof.
  intros Hb. destruct a as [t|]; simpl; [|exact Hb].
  destruct (Js.truthy t) eqn:Ht; assumption.
Qed.

Lemma orElse_blank (a : option string) (b : string) :
  blank a -> orElse a b = b.
Proof. intros [-> | ->]; reflexivity. Qed.

Lemma orElse_present (a : option string) (b t : string) :
  a = Some t -> Js.truthy t = true -> orElse a b = t.
Proof. intros -> Ht. simpl. rewrite Ht. reflexivity. Qed.

(** X1.  [getDisplayTitle] returns the first of title, name and
    [slug.current] that is present and not empty, in that order, and the
    identifier when all three are missing or empty.  So a document with a
    non-empty identifier never gets an empty display title. *)
Theorem getDisplayTitle_never_blank (item : SearchResult) :
  (forall t, title item = Some t -> Js.truthy t = true ->
             getDisplayTitle item = t) /\
  (forall n, blank (title item) ->
             name item = Some n -> Js.truthy n = true ->
             getDisplayTitle item = n) /\
  (forall c, blank (title item) -> blank (name item) ->
             slug item = Some c -> Js.truthy c = true ->
             getDisplayTitle item = c) /\
  (blank (title item) -> blank (name item) -> blank (slug item) ->
   getDisplayTitle item = _id item) /\
  (Js.truthy (_id item) = true -> Js.truthy (getDisplayTitle item) = true).
Proof.
  unfold getDisplayTitle. repeat split.
  - intros t Ht Htr. apply (orElse_present _ _ _ Ht Htr).
  - intros n Hbt Hn Htr. rewrite (orElse_blank _ _ Hbt).
    apply (orElse_present _ _ _ Hn Htr).
  - intros c Hbt Hbn Hc Htr.
    rewrite (orElse_blank _ _ Hbt), (orElse_blank _ _ Hbn).
    apply (orElse_present _ _ _ Hc Htr).
  - intros Hbt Hbn Hbs.
    rewrite (orElse_blank _ _ Hbt), (orElse_blank _ _ Hbn),
      (orElse_blank _ _ Hbs). reflexivity.
  - intros Hid. auto using orElse_truthy.
Qed.

Lemma getDisplayTitle_never_blank_witness :
  (blank (title untitled) /\ blank (name untitled) /\
   slug untitled = Some "hello" /\ Js.truthy "hello" = true /\
   getDisplayTitle untitled = "hello") /\
  (blank (title (doc "post.7" "post")) /\ blank (name (doc "post.7" "post")) /\
   blank (slug (doc "post.7" "post")) /\
   getDisplayTitle (doc "post.7" "post") = "post.7") /\
  (name (mkSearchResult "a.1" "author" None (Some "Ada") (Some "ada"))
   = Some "Ada" /\
   getDisplayTitle (mkSearchResult "a.1" "author" None (Some "Ada") (Some "ada"))
   = "Ada").
Proof.
  split; [|split].
  - split; [right; reflexivity|]. split; [left; reflexivity|].
    split; [reflexivity|]. split; [reflexivity|].
    apply (proj1 (proj2 (proj2 (getDisplayTitle_never_blank untitled)))
             "hello");
      [right; reflexivity | left; reflexivity | reflexivity | reflexivity].
  - split; [left; reflexivity|]. split; [left; reflexivity|].
    split; [left; reflexivity|].
    apply (proj1 (proj2 (proj2 (proj2
             (getDisplayTitle_never_blank (doc "post.7" "post"))))));
      left; reflexivity.
  - split; [reflexivity|].
    apply (proj1 (proj2 (getDisplayTitle_never_blank
             (mkSearchResult "a.1" "author" None (Some "Ada") (Some "ada"))))
             "Ada"); [left; reflexivity | reflexivity | reflexivity].
Defined.

(** ** More on the selection tracker *)

Lemma delete_absent (s : JsSet.t) (id : string) :
  ~ In id s -> JsSet.delete s id = s.
Proof.
  intros Hout. unfold JsSet.delete.
  induction s as [|x s IH]; simpl; [reflexivity|].
  destruct (String.eqb_spec id x) as [-> | Hne]; simpl.
  - exfalso. apply Hout. left. reflexivity.
  - f_equal. apply IH. intros H. apply Hout. right. exact H.
Qed.

Lemma NoDup_add (s : JsSet.t) (id : string) :
  NoDup s -> NoDup (JsSet.add s id).
Proof.
  intros Hnd. unfold JsSet.add. destruct (JsSet.has s id) eqn:Hhas;
    [exact Hnd|].
  apply has_false in Hhas.
  apply NoDup_app; [exact Hnd | repeat constructor; intros [] |].
  intros x Hx [<- | []]. contradiction.
Qed.

Lemma NoDup_delete (s : JsSet.t) (id : string) :
  NoDup s -> NoDup (JsSet.delete s id).
Proof. intros Hnd. apply NoDup_filter. exact Hnd. Qed.

Lemma NoDup_fold_add (l : list string) : forall acc : JsSet.t,
  NoDup acc -> NoDup (fold_left JsSet.add l acc).
Proof.
  induction l as [|x l IH]; intros acc Hnd; simpl; [exact Hnd|].
  apply IH, NoDup_add, Hnd.
Qed.

Lemma NoDup_ofList (l : list string) : NoDup (JsSet.ofList l).
Proof. apply NoDup_fold_add. constructor. Qed.

Lemma length_delete (s : JsSet.t) (id : string) :
  NoDup s -> In id s -> S (length (JsSet.delete s id)) = length s.
Proof.
  unfold JsSet.delete. induction s as [|x s IH]; intros Hnd Hin;
    [contradiction|].
  inversion Hnd as [|? ? Hx Hnd']; subst. simpl.
  destruct (String.eqb_spec id x) as [-> | Hne]; simpl.
  - f_equal. f_equal. apply (delete_absent s x Hx).
  - f_equal. apply IH; [exact Hnd'|].
    destruct Hin as [Heq | Hin]; [congruence | exact Hin].
Qed.

(** X2.  Toggling the same identifier twice gives back the same members,
    and leaves the result list alone.  When the identifier was not selected
    to begin with, the selection comes back exactly, order included; when it
    was, the identifier ends up last in iteration order. *)
Theorem toggle_twice (id : string) (s : State) :
  let s2 := toggleItemSelection id (toggleItemSelection id s) in
  (forall x, In x (selectedItems s2) <-> In x (selectedItems s)) /\
  searchResults s2 = searchResults s /\
  (JsSet.has (selectedItems s) id = false ->
   selectedItems s2 = selectedItems s) /\
  (JsSet.has (selectedItems s) id = true ->
   selectedItems s2 = JsSet.delete (selectedItems s) id ++ [id]).
Proof.
  cbv zeta. unfold toggleItemSelection.
  cbn [selectedItems searchResults setSelectedItems].
  destruct (JsSet.has (selectedItems s) id) eqn:Hhas.
  - pose proof (proj1 (has_In _ _) Hhas) as Hin.
    assert (Hgone : JsSet.has (JsSet.delete (selectedItems s) id) id = false).
    { apply has_false. rewrite In_delete. intros [_ Hne]. congruence. }
    rewrite Hgone.
    split; [intros x; rewrite In_add, In_delete; split|].
    + intros [[Hx _] | ->]; assumption.
    + intros Hx.
      destruct (String.eqb_spec x id); [right|left; split]; auto.
    + split; [reflexivity|]. split; [discriminate|].
      intros _. unfold JsSet.add. rewrite Hgone. reflexivity.
  - pose proof (proj1 (has_false _ _) Hhas) as Hout.
    assert (Hnow : JsSet.has (JsSet.add (selectedItems s) id) id = true).
    { apply has_In, In_add. right. reflexivity. }
    assert (Hback : JsSet.delete (JsSet.add (selectedItems s) id) id
                    = selectedItems s).
    { unfold JsSet.add. rewrite Hhas. unfold JsSet.delete.
      rewrite filter_app. fold (JsSet.delete (selectedItems s) id).
      rewrite delete_absent by exact Hout.
      simpl. rewrite String.eqb_refl. simpl. apply app_nil_r. }
    rewrite Hnow, Hback. split; [intros x; reflexivity|].
    split; [reflexivity|]. split; [reflexivity | discriminate].
Qed.

Lemma toggle_twice_witness :
  JsSet.has (selectedItems fiveSelected) "f" = false /\
  selectedItems (toggleItemSelection "f" (toggleItemSelection "f" fiveSelected))
  = selectedItems fiveSelected /\
  JsSet.has (selectedItems fiveSelected) "a" = true /\
  selectedItems (toggleItemSelection "a" (toggleItemSelection "a" fiveSelected))
  = JsSet.delete (selectedItems fiveSelected) "a" ++ ["a"].
Proof.
  split; [reflexivity|]. split.
  - apply (proj1 (proj2 (proj2 (toggle_twice "f" fiveSelected)))).
    reflexivity.
  - split; [reflexivity|].
    apply (proj2 (proj2 (proj2 (toggle_twice "a" fiveSelected)))).
    reflexivity.
Defined.

(** X3.  On a selection without repeated members, one toggle changes the
    size by exactly one: down when the identifier was selected, up when it
    was not.  The new selection has no repeated members either. *)
Theorem toggle_size (id : string) (s : State) :
  NoDup (selectedItems s) ->
  NoDup (selectedItems (toggleItemSelection id s)) /\
  if JsSet.has (selectedItems s) id then
    S (JsSet.size (selectedItems (toggleItemSelection id s)))
    = JsSet.size (selectedItems s)
  else
    JsSet.size (selectedItems (toggleItemSelection id s))
    = S (JsSet.size (selectedItems s)).
Proof.
  intros Hnd. unfold toggleItemSelection, JsSet.size.
  cbn [selectedItems setSelectedItems].
  destruct (JsSet.has (selectedItems s) id) eqn:Hhas.
  - split; [apply NoDup_delete, Hnd|].
    apply length_delete; [exact Hnd | apply has_In, Hhas].
  - split; [apply NoDup_add, Hnd|].
    unfold JsSet.add. rewrite Hhas, length_app. simpl. lia.
Qed.

Lemma toggle_size_witness :
  NoDup (selectedItems fiveSelected) /\
  NoDup (selectedItems (toggleItemSelection "c" fiveSelected)) /\
  if JsSet.has (selectedItems fiveSelected) "c" then
    S (JsSet.size (selectedItems (toggleItemSelection "c" fiveSelected)))
    = JsSet.size (selectedItems fiveSelected)
  else
    JsSet.size (selectedItems (toggleItemSelection "c" fiveSelected))
    = S (JsSet.size (selectedItems fiveSelected)).
Proof.
  assert (Hnd : NoDup (selectedItems fiveSelected)).
  { repeat constructor; simpl; intuition discriminate. }
  split; [exact Hnd|].
  apply (toggle_size "c" fiveSelected Hnd).
Defined.

Lemma selectAll_selects_results_helper (s : State) :
  (forall x, In x (selectedItems (selectAll s))
             <-> In x (ids (searchResults s))) /\
  (forall item, In item (searchResults s) ->
                JsSet.has (selectedItems (selectAll s)) (_id item) = true) /\
  (JsSet.size (selectedItems (selectAll s)) <= length (searchResults s))%nat.
Proof.
  unfold selectAll. cbn [selectedItems searchResults setSelectedItems].
  split; [intros x; apply In_ofList|].
  split.
  - intros item Hitem. apply has_In, In_ofList, in_map. exact Hitem.
  - unfold JsSet.size. rewrite <- (length_map _id (searchResults s)).
    apply NoDup_incl_length; [apply NoDup_ofList|].
    intros x Hx. exact (proj1 (In_ofList _ _) Hx).
Qed.

(** X4.  After [selectAll] the selection holds exactly the identifiers of
    the result list, each once: every rendered check box is checked, and
    the size is at most the number of results (documents that share an
    identifier count once). *)
Theorem selectAll_selects_results (s : State) :
  let s' := selectAll s in
  (forall x, In x (selectedItems s') <-> In x (ids (searchResults s))) /\
  (forall item, In item (searchResults s') ->
                JsSet.has (selectedItems s') (_id item) = true) /\
  NoDup (selectedItems s') /\
  (JsSet.size (selectedItems s') <= length (searchResults s))%nat /\
  searchResults s' = searchResults s.
Proof.
  cbv zeta. unfold selectAll. cbn [selectedItems searchResults setSelectedItems].
  split; [intros x; apply In_ofList|].
  split.
  { intros item Hitem. apply has_In, In_ofList, in_map. exact Hitem. }
  split; [apply NoDup_ofList|].
  split; [|reflexivity].
  unfold JsSet.size. rewrite <- (length_map _id (searchResults s)).
  apply NoDup_incl_length; [apply NoDup_ofList|].
  intros x Hx. exact (proj1 (In_ofList _ _) Hx).
Qed.

Lemma selectAll_selects_results_witness :
  In (doc "f" "post") (searchResults (selectAll fiveSelected)) /\
  JsSet.has (selectedItems (selectAll fiveSelected)) (_id (doc "f" "post"))
  = true.
Proof.
  split; [do 5 right; left; reflexivity|].
  apply (proj1 (proj2 (selectAll_selects_results fiveSelected))
           (doc "f" "post")).
  do 5 right. left. reflexivity.
Defined.

(** ** Sessions *)

Lemma session_invariant {Store} (p : Props) (client : Client Store)
    (P : State -> Prop) :
  (forall a s w s' w' tr,
      P s -> dispatch p client a s w = Some (s', w', tr) -> P s') ->
  forall actions s w s' w' tr,
    P s -> session p client actions s w = Some (s', w', tr) -> P s'.
Proof.
  intros Hstep. induction actions as [|a rest IH];
    intros s w s' w' tr HP; simpl.
  - intros H. injection H as <- _ _. exact HP.
  - destruct (dispatch p client a s w) as [[[s1 w1] tr1]|] eqn:Hd;
      [|discriminate].
    destruct (session p client rest s1 w1) as [[[s2 w2] tr2]|] eqn:Hrest;
      [|discriminate].
    intros H. injection H as <- _ _.
    eapply IH; [|exact Hrest]. eapply Hstep; [exact HP | exact Hd].
Qed.

Lemma deleteLoop_ui {Store} (p : Props) (client : Client Store)
    (items : list string) (fuel : nat) : forall (i : Z) (r r' : Run),
  deleteLoop p client fuel items i r = Some r' ->
  exists m, ui r' = setMessage m (ui r).
Proof.
  induction fuel as [|fuel IH]; intros i r r'; simpl;
    destruct (i <? Z.of_nat (length items)); try discriminate;
    try (intros H; injection H as <-; exists (message (ui r));
         symmetry; apply setMessage_same).
  intros H. apply IH in H. destruct H as (m & Hm). rewrite Hm.
  unfold deleteBatch. destruct (dryRun p); [exists m; reflexivity|].
  destruct (commit client (world r) _) as [[[]|e] w']; exists m; reflexivity.
Qed.

(** The shape of the state that [handleDelete] returns, for any batch size
    and any fuel that was enough. *)
Lemma handleDelete_state {Store} (p : Props) (client : Client Store)
    (fuel : nat) (s : State) (w : Store) s' w' tr :
  handleDelete p client fuel s w = Some (s', w', tr) ->
  s' = s \/
  exists results msg,
    s' = mkState (searchQuery s) (selectedType s) results JsSet.empty
                 (isSearching s) false false (availableTypes s)
                 (customGroqQuery s) (useCustomQuery s) msg.
Proof.
  unfold handleDelete.
  destruct (JsSet.size (selectedItems s) =? 0)%nat.
  - intros H. injection H as <- _ _. left. reflexivity.
  - destruct (deleteLoop _ _ _ _ _ _) as [r|] eqn:Hloop; [|discriminate].
    apply deleteLoop_ui in Hloop. destruct Hloop as (m & Hm).
    intros H. injection H as <- _ _. right. rewrite Hm.
    eexists _, _. reflexivity.
Qed.

Lemma handleSearch_state {Store} (p : Props) (client : Client Store)
    (s : State) (w : Store) :
  exists results selection searching msg,
    fst (fst (handleSearch p client s w))
    = mkState (searchQuery s) (selectedType s) results selection
              searching (isDeleting s) (showConfirmDialog s)
              (availableTypes s) (customGroqQuery s) (useCustomQuery s) msg /\
    (searching = false \/ searching = isSearching s).
Proof.
  unfold handleSearch. destruct (searchRejected s).
  - eexists _, _, _, _. split; [reflexivity | right; reflexivity].
  - destruct (fetch client w (buildQuery p s)) as [[results|e] w'].
    + destruct (lengthText results);
        eexists _, _, _, _; (split; [reflexivity | left; reflexivity]).
    + eexists _, _, _, _. split; [reflexivity | left; reflexivity].
Qed.

(** X5.  In every state that a session of rendered controls reaches from
    the initial state, the selection has no repeated member: its size is
    the number of distinct selected identifiers, and a delete run gets each
    of them once. *)
Theorem session_selection_distinct {Store} (p : Props) (client : Client Store)
    (actions : list Action) (w : Store) s' w' tr :
  session p client actions initialState w = Some (s', w', tr) ->
  NoDup (selectedItems s').
Proof.
  apply (session_invariant p client (fun s => NoDup (selectedItems s)));
    [|constructor].
  clear. intros a s w s' w' tr Hnd. unfold dispatch.
  destruct (enabled s a); [|discriminate].
  destruct a; try (intros H; injection H as <- _ _; exact Hnd).
  - (* Mount *)
    intros H. injection H as Hs. unfold loadAvailableTypes in Hs.
    destruct (0 <? length (documentTypes p))%nat;
      [|destruct (fetchTypes client w) as [[types|e] w1]];
      injection Hs as <- _ _; exact Hnd.
  - (* ClickSearch *)
    intros H. injection H as Hs.
    pose proof (handleSearch_selection p client s w) as Hsel.
    cbv zeta in Hsel. rewrite Hs in Hsel. cbn [fst] in Hsel.
    destruct Hsel as [[_ ->] | ->]; [exact Hnd | constructor].
  - (* ClickCheckbox *)
    intros H. injection H as <- _ _.
    unfold toggleItemSelection. cbn [selectedItems setSelectedItems].
    destruct (JsSet.has (selectedItems s) id);
      [apply NoDup_delete | apply NoDup_add]; exact Hnd.
  - (* ClickSelectAll *)
    intros H. injection H as <- _ _. apply NoDup_ofList.
  - (* ClickClear *)
    intros H. injection H as <- _ _. constructor.
  - (* ConfirmDelete *)
    intros H. apply handleDelete_selection in H.
    destruct H as [-> | ->]; [exact Hnd | constructor].
Qed.

Lemma session_selection_distinct_witness :
  exists s' tr,
    session previewProps archiveClient sampleSession initialState sixPosts
    = Some (s', sixPosts, tr) /\
    NoDup (selectedItems s').
Proof.
  eexists _, _. split; [vm_compute; reflexivity|].
  eapply (session_selection_distinct previewProps archiveClient sampleSession
            sixPosts _ sixPosts _).
  vm_compute. reflexivity.
Defined.

(** X6.  Between two events no loading flag is left set: in every state a
    session reaches from the initial state, [isSearching] and [isDeleting]
    are both off, whatever the store answered. *)
Theorem session_idle_flags {Store} (p : Props) (client : Client Store)
    (actions : list Action) (w : Store) s' w' tr :
  session p client actions initialState w = Some (s', w', tr) ->
  isSearching s' = false /\ isDeleting s' = false.
Proof.
  apply (session_invariant p client
           (fun s => isSearching s = false /\ isDeleting s = false));
    [|split; reflexivity].
  clear. intros a s w s' w' tr Hidle. unfold dispatch.
  destruct (enabled s a); [|discriminate].
  destruct a; try (intros H; injection H as <- _ _; exact Hidle).
  - (* Mount *)
    intros H. injection H as Hs. unfold loadAvailableTypes in Hs.
    destruct (0 <? length (documentTypes p))%nat;
      [|destruct (fetchTypes client w) as [[types|e] w1]];
      injection Hs as <- _ _; exact Hidle.
  - (* ClickSearch *)
    intros H. injection H as Hs.
    destruct (handleSearch_state p client s w)
      as (results & selection & searching & msg & Hst & Hflag).
    rewrite Hs in Hst. cbn [fst] in Hst. subst s'. cbn.
    destruct Hidle as [Hs1 Hs2]. split; [|exact Hs2].
    destruct Hflag as [-> | ->]; [reflexivity | exact Hs1].
  - (* ConfirmDelete *)
    intros H. apply handleDelete_state in H.
    destruct H as [-> | (results & msg & ->)]; [exact Hidle|].
    cbn. split; [apply Hidle | reflexivity].
Qed.

Lemma session_idle_flags_witness :
  exists s' tr,
    session previewProps archiveClient sampleSession initialState sixPosts
    = Some (s', sixPosts, tr) /\
    isSearching s' = false /\ isDeleting s' = false.
Proof.
  eexists _, _. split; [vm_compute; reflexivity|].
  eapply (session_idle_flags previewProps archiveClient sampleSession
            sixPosts _ sixPosts _).
  vm_compute. reflexivity.
Defined.

(** X7.  Neither handler touches the form: after [handleSearch], and after
    a [handleDelete] that returned, the search term, the chosen type, the
    known types, the custom query text and the custom-query flag are what
    they were.  A delete run that got past the empty-selection guard also
    closes the confirmation dialog. *)
Theorem handlers_keep_form_inputs {Store} (p : Props) (client : Client Store)
    (s : State) (w : Store) :
  formInputs (fst (fst (handleSearch p client s w))) = formInputs s /\
  (forall fuel s' w' tr,
      handleDelete p client fuel s w = Some (s', w', tr) ->
      formInputs s' = formInputs s /\
      (selectedItems s <> [] -> showConfirmDialog s' = false)).
Proof.
  split.
  - destruct (handleSearch_state p client s w)
      as (results & selection & searching & msg & Hst & _).
    rewrite Hst. reflexivity.
  - intros fuel s' w' tr H. pose proof H as Hrun.
    apply handleDelete_state in H.
    destruct H as [-> | (results & msg & ->)].
    + split; [reflexivity|]. intros Hne. exfalso.
      unfold handleDelete, JsSet.size in Hrun.
      destruct (selectedItems s) as [|x l] eqn:Hsel; [congruence|].
      cbn [length Nat.eqb] in Hrun.
      destruct (deleteLoop _ _ _ _ _ _) as [r|]; [|discriminate].
      injection Hrun as Hs _ _.
      apply (f_equal selectedItems) in Hs. cbn in Hs.
      rewrite Hsel in Hs. discriminate.
    + split; reflexivity.
Qed.

Lemma handlers_keep_form_inputs_witness :
  formInputs (fst (fst (handleSearch liveProps flakyClient fiveSelected 0%nat)))
  = formInputs fiveSelected /\
  exists s' w' tr,
    handleDelete liveProps flakyClient 5 fiveSelected 0%nat
    = Some (s', w', tr) /\
    formInputs s' = formInputs fiveSelected /\
    (selectedItems fiveSelected <> [] -> showConfirmDialog s' = false).
Proof.
  split.
  - apply (proj1 (handlers_keep_form_inputs liveProps flakyClient
                    fiveSelected 0%nat)).
  - eexists _, _, _. split; [vm_compute; reflexivity|].
    eapply (proj2 (handlers_keep_form_inputs liveProps flakyClient
                     fiveSelected 0%nat) 5%nat).
    vm_compute. reflexivity.
Defined.

(** ** Loading the known types *)

(** X8.  [loadAvailableTypes] never stores an empty type name.  With a
    non-empty [documentTypes] prop it does not call the store at all; with
    an empty one it sends the one type query, and when that is rejected the
    state stays as it was and the error callback gets the fixed text, not
    the message of what was thrown. *)
Theorem loadAvailableTypes_behaviour {Store} (p : Props)
    (client : Client Store) (s : State) (w : Store) :
  (forall s' w' tr,
      loadAvailableTypes p client s w = (s', w', tr) ->
      s' = s \/ forall t, In t (availableTypes s') -> t <> EmptyString) /\
  (documentTypes p <> [] ->
   loadAvailableTypes p client s w
   = (setAvailableTypes (filter Js.truthy (documentTypes p)) s, w, [])) /\
  (forall e w',
      documentTypes p = [] ->
      fetchTypes client w = (Rejected e, w') ->
      loadAvailableTypes p client s w
      = (s, w', FetchTypes :: ConsoleErrorTypes e
                  :: optionalCall (onError p)
                       (OnError "Failed to load document types"))).
Proof.
  assert (Hfilter : forall l t, In t (filter Js.truthy l) -> t <> EmptyString).
  { intros l t Ht. apply filter_In in Ht. destruct Ht as [_ Ht].
    apply truthy_nonempty. exact Ht. }
  unfold loadAvailableTypes. repeat split.
  - intros s' w' tr.
    destruct (0 <? length (documentTypes p))%nat.
    + intros H. injection H as <- _ _. right. apply Hfilter.
    + destruct (fetchTypes client w) as [[types|e] w1];
        intros H; injection H as <- _ _; [right; apply Hfilter | left; reflexivity].
  - intros Hne. destruct (documentTypes p); [congruence | reflexivity].
  - intros e w' Hnone Hfetch. rewrite Hnone, Hfetch. reflexivity.
Qed.

Lemma loadAvailableTypes_behaviour_witness :
  documentTypes typedProps <> [] /\
  loadAvailableTypes typedProps flakyClient initialState 0%nat
  = (setAvailableTypes ["post"; "page"] initialState, 0%nat, []) /\
  (documentTypes liveProps = [] /\
   fetchTypes nullClient tt = (Rejected Js.NonError, tt) /\
   loadAvailableTypes liveProps nullClient initialState tt
   = (initialState, tt,
      [FetchTypes; ConsoleErrorTypes Js.NonError;
       OnError "Failed to load document types"])).
Proof.
  split; [discriminate|]. split.
  - apply (proj1 (proj2 (loadAvailableTypes_behaviour typedProps flakyClient
                           initialState 0%nat))).
    discriminate.
  - split; [reflexivity|]. split; [reflexivity|].
    apply (proj2 (proj2 (loadAvailableTypes_behaviour liveProps nullClient
                           initialState tt)) Js.NonError tt);
      reflexivity.
Defined.

(** ** More on the search executor *)

(** X9.  A read that resolves with something that is not an array empties
    the result list and the selection.  When it resolved with [null] or
    [undefined], reading its length throws after the two were emptied: the
    search ends as a failure (status line, error callback) and the earlier
    results are gone all the same. *)
Theorem handleSearch_non_array {Store} (p : Props) (client : Client Store)
    (s : State) (w : Store) :
  searchRejected s = false ->
  let query := buildQuery p s in
  (forall msg w',
      fetch client w query = (Resolved (VNullish msg), w') ->
      exists s',
        handleSearch p client s w
        = (s', w',
           [ConsoleLogQuery query; Fetch query;
            ConsoleErrorSearch (Js.ErrorObject msg)]
           ++ optionalCall (onError p) (OnError msg)) /\
        searchResults s' = [] /\
        selectedItems s' = JsSet.empty /\
        message s' = ("Search error: " ++ msg)%string) /\
  (forall txt w',
      fetch client w query = (Resolved (VOther txt), w') ->
      exists s',
        handleSearch p client s w
        = (s', w', [ConsoleLogQuery query; Fetch query]) /\
        searchResults s' = [] /\
        selectedItems s' = JsSet.empty /\
        message s' = ("Found " ++ txt ++ " documents")%string).
Proof.
  intros Hopen. cbv zeta. unfold handleSearch. rewrite Hopen. split.
  - intros msg w' Hfetch. rewrite Hfetch. cbn.
    eexists. repeat split.
  - intros txt w' Hfetch. rewrite Hfetch. cbn.
    eexists. repeat split.
Qed.

Lemma handleSearch_non_array_witness :
  searchRejected fiveSelected = false /\
  fetch nullClient tt (buildQuery liveProps fiveSelected)
  = (Resolved (VNullish "Cannot read properties of null"), tt) /\
  exists s',
    handleSearch liveProps nullClient fiveSelected tt
    = (s', tt,
       [ConsoleLogQuery (buildQuery liveProps fiveSelected);
        Fetch (buildQuery liveProps fiveSelected);
        ConsoleErrorSearch (Js.ErrorObject "Cannot read properties of null")]
       ++ optionalCall (onError liveProps)
            (OnError "Cannot read properties of null")) /\
    searchResults s' = [] /\
    selectedItems s' = JsSet.empty /\
    message s' = "Search error: Cannot read properties of null".
Proof.
  split; [reflexivity|]. split; [reflexivity|].
  destruct (handleSearch_non_array liveProps nullClient fiveSelected tt)
    as [Hnull _]; [reflexivity|].
  apply (Hnull "Cannot read properties of null" tt). reflexivity.
Defined.

(** X10.  Custom-query mode with a blank custom text: the search is let
    through whatever the search term is, and the query that is sent is the
    built one, made from the chosen type and the search term.  With a blank
    term, type "all" and no known types, that query has an empty filter: it
    asks for every document, up to the result cap. *)
Theorem blank_custom_query_falls_back {Store} (p : Props)
    (client : Client Store) (s : State) (w : Store) :
  useCustomQuery s = true ->
  Js.trim (customGroqQuery s) = EmptyString ->
  searchRejected s = false /\
  fetchesOf (snd (handleSearch p client s w))
  = [("*[" ++ Js.join " && " (conditions s)
           ++ windowAndProjection (maxResults p))%string] /\
  (Js.trim (searchQuery s) = EmptyString ->
   selectedType s = "all"%string ->
   availableTypes s = [] ->
   fetchesOf (snd (handleSearch p client s w))
   = [("*[" ++ windowAndProjection (maxResults p))%string]).
Proof.
  intros Hflag Hblank.
  assert (Hopen : searchRejected s = false).
  { unfold searchRejected. rewrite Hflag. apply andb_false_r. }
  assert (Hpath : customPath s = false).
  { unfold customPath. rewrite Hflag, Hblank. reflexivity. }
  assert (Hsent : fetchesOf (snd (handleSearch p client s w))
                  = [buildQuery p s]).
  { unfold handleSearch. rewrite Hopen.
    destruct (fetch client w (buildQuery p s)) as [[results|e] w'].
    - destruct (lengthText results); [reflexivity|].
      unfold searchFailed. destruct (onError p); reflexivity.
    - unfold searchFailed. destruct (onError p); reflexivity. }
  split; [exact Hopen|]. rewrite Hsent, (buildQuery_built p s Hpath).
  split; [reflexivity|].
  intros Hterm Hall Hnone.
  unfold conditions, typeConditions, searchConditions.
  rewrite Hterm, Hall, Hnone. reflexivity.
Qed.

Lemma blank_custom_query_falls_back_witness :
  useCustomQuery customBlank = true /\
  Js.trim (customGroqQuery customBlank) = EmptyString /\
  searchRejected customBlank = false /\
  fetchesOf (snd (handleSearch defaultProps flakyClient customBlank 0%nat))
  = [("*[" ++ windowAndProjection 100)%string].
Proof.
  split; [reflexivity|]. split; [reflexivity|].
  destruct (blank_custom_query_falls_back defaultProps flakyClient
              customBlank 0%nat) as (Hopen & _ & Hall);
    [reflexivity | reflexivity |].
  split; [exact Hopen|]. apply Hall; reflexivity.
Defined.

(** ** More on the query builder *)

Lemma truthy_toLowerCase (t : string) :
  Js.truthy (Js.toLowerCase t) = Js.truthy t.
Proof. destruct t; reflexivity. Qed.

(** X11.  The query depends on the search term only through its trimmed,
    lower-cased form: two terms that differ in letter case or in white space
    around them give the same query, and are let through or turned away
    alike. *)
Theorem buildQuery_ignores_case_and_padding (p : Props) (s : State)
    (q1 q2 : string) :
  Js.toLowerCase (Js.trim q1) = Js.toLowerCase (Js.trim q2) ->
  buildQuery p (setSearchQuery q1 s) = buildQuery p (setSearchQuery q2 s) /\
  searchRejected (setSearchQuery q1 s) = searchRejected (setSearchQuery q2 s).
Proof.
  intros Heq.
  assert (Htruthy : Js.truthy (Js.trim q1) = Js.truthy (Js.trim q2)).
  { rewrite <- (truthy_toLowerCase (Js.trim q1)),
            <- (truthy_toLowerCase (Js.trim q2)), Heq. reflexivity. }
  unfold buildQuery, searchRejected, customPath, conditions,
    searchConditions, typeConditions.
  cbn [searchQuery selectedType availableTypes customGroqQuery useCustomQuery
       setSearchQuery].
  rewrite Htruthy, Heq. split; reflexivity.
Qed.

Lemma buildQuery_ignores_case_and_padding_witness :
  Js.toLowerCase (Js.trim " Acme ") = Js.toLowerCase (Js.trim "ACME") /\
  buildQuery liveProps (setSearchQuery " Acme " fiveSelected)
  = buildQuery liveProps (setSearchQuery "ACME" fiveSelected) /\
  searchRejected (setSearchQuery " Acme " fiveSelected)
  = searchRejected (setSearchQuery "ACME" fiveSelected).
Proof.
  split; [reflexivity|].
  apply (buildQuery_ignores_case_and_padding liveProps fiveSelected
           " Acme " "ACME").
  reflexivity.
Defined.

(** ** More on the batch deleter *)

Lemma deleteLoop_stuck {Store} (p : Props) (client : Client Store)
    (items : list string) (fuel : nat) : forall (i : Z) (r : Run),
  batchSize p <= 0 ->
  i < Z.of_nat (length items) ->
  deleteLoop p client fuel items i r = None.
Proof.
  induction fuel as [|fuel IH]; intros i r HB Hi; simpl;
    destruct (Z.ltb_spec i (Z.of_nat (length items))); try lia.
  - reflexivity.
  - apply IH; lia.
Qed.

(** X12.  With a batch size of zero or less, the loop over a non-empty
    selection never reaches its exit test with a larger index: no amount of
    fuel lets [handleDelete] return, so the selection is never pruned and
    the completion callback is never called. *)
Theorem handleDelete_never_returns {Store} (p : Props) (client : Client Store)
    (s : State) (w : Store) :
  batchSize p <= 0 ->
  selectedItems s <> [] ->
  forall fuel, handleDelete p client fuel s w = None.
Proof.
  intros HB Hne fuel. unfold handleDelete, JsSet.size, JsSet.toArray.
  destruct (selectedItems s) as [|x l] eqn:Hsel; [congruence|].
  cbn [length Nat.eqb].
  rewrite (deleteLoop_stuck p client (x :: l) fuel 0 _ HB);
    [reflexivity | simpl; lia].
Qed.

Lemma handleDelete_never_returns_witness :
  batchSize zeroBatchProps <= 0 /\
  selectedItems fiveSelected <> [] /\
  forall fuel, handleDelete zeroBatchProps flakyClient fuel fiveSelected 0%nat
               = None.
Proof.
  split; [simpl; lia|]. split; [discriminate|].
  apply (handleDelete_never_returns zeroBatchProps flakyClient fiveSelected
           0%nat); [simpl; lia | discriminate].
Defined.

Lemma deleteLoop_windows {Store} (p : Props) (client : Client Store)
    (items : list string) (fuel : nat) : forall (i : Z) (r r' : Run),
  deleteLoop p client fuel items i r = Some r' ->
  batchesOf (calls r')
  = batchesOf (calls r) ++ windows fuel items (batchSize p) i.
Proof.
  induction fuel as [|fuel IH]; intros i r r'; simpl;
    destruct (i <? Z.of_nat (length items)); try discriminate;
    try (intros H; injection H as <-; symmetry; apply app_nil_r).
  intros H. apply IH in H. rewrite H. clear H.
  unfold deleteBatch. destruct (dryRun p).
  - cbn [calls]. rewrite batchesOf_app, <- app_assoc. reflexivity.
  - destruct (commit client (world r) _) as [[[]|e] w']; cbn [calls];
      rewrite batchesOf_app, <- app_assoc; reflexivity.
Qed.

Lemma handleDelete_windows {Store} (p : Props) (client : Client Store)
    (fuel : nat) (s : State) (w : Store) s' w' tr :
  handleDelete p client fuel s w = Some (s', w', tr) ->
  batchesOf tr = windows fuel (selectedItems s) (batchSize p) 0.
Proof.
  unfold handleDelete, JsSet.size, JsSet.toArray.
  destruct (selectedItems s) as [|x l] eqn:Hsel.
  - intros H. injection H as _ _ <-. destruct fuel; reflexivity.
  - cbn [length Nat.eqb].
    destruct (deleteLoop _ _ _ _ _ _) as [r|] eqn:Hloop; [|discriminate].
    apply deleteLoop_windows in Hloop. cbn [calls batchesOf app] in Hloop.
    intros H. injection H as _ _ <-.
    rewrite batchesOf_app, batchesOf_optionalCall, app_nil_r. exact Hloop.
Qed.

Lemma handleDelete_returns {Store} (p : Props) (client : Client Store)
    (fuel : nat) (s : State) (w : Store) :
  1 <= batchSize p ->
  (JsSet.size (selectedItems s) <= fuel)%nat ->
  exists s' w' tr, handleDelete p client fuel s w = Some (s', w', tr).
Proof.
  intros HB Hfuel. unfold JsSet.size in Hfuel.
  destruct (selectedItems s) as [|x l] eqn:Hsel.
  - exists s, w, []. unfold handleDelete, JsSet.size. rewrite Hsel. reflexivity.
  - destruct (handleDelete_run p client fuel s w HB) as (r & new & _ & Hrun);
      [congruence | rewrite Hsel; exact Hfuel |].
    rewrite Hrun. eexists _, _, _. reflexivity.
Qed.

(** X13.  A preview cuts the batches that a live run cuts.  For the same
    selection and the same batch size B >= 1, the batches a preview logs
    are, one for one and in order, the batches a live run sends to its
    store, whatever that store answers. *)
Theorem preview_cuts_the_same_batches {Store} (pv lv : Props)
    (client1 client2 : Client Store) (fuel : nat) (s1 s2 : State)
    (w1 w2 : Store) :
  dryRun pv = true ->
  dryRun lv = false ->
  batchSize pv = batchSize lv ->
  1 <= batchSize lv ->
  selectedItems s1 = selectedItems s2 ->
  (JsSet.size (selectedItems s1) <= fuel)%nat ->
  exists s1' w1' tr1 s2' w2' tr2,
    handleDelete pv client1 fuel s1 w1 = Some (s1', w1', tr1) /\
    handleDelete lv client2 fuel s2 w2 = Some (s2', w2', tr2) /\
    batchesOf tr1 = batchesOf tr2 /\
    commitsOf tr1 = [] /\
    map fst (commitsOf tr2) = batchesOf tr1.
Proof.
  intros Hpv Hlv HB Hpos Hsel Hfuel.
  destruct (handleDelete_returns pv client1 fuel s1 w1)
    as (s1' & w1' & tr1 & H1); [lia | exact Hfuel |].
  destruct (handleDelete_returns lv client2 fuel s2 w2)
    as (s2' & w2' & tr2 & H2); [exact Hpos | rewrite <- Hsel; exact Hfuel |].
  exists s1', w1', tr1, s2', w2', tr2.
  split; [exact H1|]. split; [exact H2|].
  assert (Hsame : batchesOf tr1 = batchesOf tr2).
  { rewrite (handleDelete_windows _ _ _ _ _ _ _ _ H1),
            (handleDelete_windows _ _ _ _ _ _ _ _ H2), Hsel, HB.
    reflexivity. }
  split; [exact Hsame|].
  unfold JsSet.size in Hfuel.
  destruct (selectedItems s1) as [|x l] eqn:Hs1.
  - assert (Hs2 : selectedItems s2 = []) by congruence.
    unfold handleDelete, JsSet.size in H1, H2. rewrite Hs1 in H1.
    rewrite Hs2 in H2. injection H1 as _ _ <-. injection H2 as _ _ <-.
    split; reflexivity.
  - destruct (handleDelete_run pv client1 fuel s1 w1) as (r1 & n1 & Hg1 & Hr1);
      [lia | congruence | rewrite Hs1; exact Hfuel |].
    destruct (handleDelete_run lv client2 fuel s2 w2 Hpos)
      as (r2 & n2 & Hg2 & Hr2);
      [congruence | rewrite <- Hsel; exact Hfuel |].
    rewrite Hr1 in H1. rewrite Hr2 in H2.
    injection H1 as _ _ <-. injection H2 as _ _ <-.
    destruct Hg1 as (_ & _ & _ & _ & _ & Hm1). rewrite Hpv in Hm1.
    destruct Hg2 as (_ & _ & _ & _ & _ & Hm2). rewrite Hlv in Hm2.
    destruct Hm1 as (Hn1 & _). destruct Hm2 as (_ & Hf2 & _).
    rewrite !batchesOf_app, !batchesOf_optionalCall, !app_nil_r in Hsame.
    rewrite !commitsOf_app, !commitsOf_optionalCall, !app_nil_r.
    rewrite batchesOf_app, batchesOf_optionalCall, app_nil_r.
    split; [rewrite Hn1; apply commitsOf_batches|].
    rewrite <- Hf2. symmetry. exact Hsame.
Qed.

Lemma preview_cuts_the_same_batches_witness :
  dryRun previewProps = true /\
  dryRun liveProps = false /\
  batchSize previewProps = batchSize liveProps /\
  1 <= batchSize liveProps /\
  (JsSet.size (selectedItems fiveSelected) <= 5)%nat /\
  exists s1' w1' tr1 s2' w2' tr2,
    handleDelete previewProps flakyClient 5 fiveSelected 0%nat
    = Some (s1', w1', tr1) /\
    handleDelete liveProps flakyClient 5 fiveSelected 0%nat
    = Some (s2', w2', tr2) /\
    batchesOf tr1 = batchesOf tr2 /\
    commitsOf tr1 = [] /\
    map fst (commitsOf tr2) = batchesOf tr1.
Proof.
  split; [reflexivity|]. split; [reflexivity|]. split; [reflexivity|].
  split; [simpl; lia|]. split; [simpl; lia|].
  apply (preview_cuts_the_same_batches previewProps liveProps flakyClient
           flakyClient 5 fiveSelected fiveSelected 0%nat 0%nat);
    [reflexivity | reflexivity | reflexivity | simpl; lia | reflexivity
    | simpl; lia].
Defined.

Lemma slice_incl {A} (l : list A) (start stop : Z) :
  incl (Js.slice l start stop) l.
Proof.
  unfold Js.slice. intros x Hx.
  set (k := Z.to_nat (Js.relIndex (Z.of_nat (length l)) start)) in *.
  set (n := Z.to_nat (Js.relIndex (Z.of_nat (length l)) stop
                      - Js.relIndex (Z.of_nat (length l)) start)) in *.
  rewrite <- (firstn_skipn k l). apply in_or_app. right.
  rewrite <- (firstn_skipn n (skipn k l)). apply in_or_app. left. exact Hx.
Qed.

Lemma windows_incl (fuel : nat) (items : list string) (b : Z) :
  forall i batch, In batch (windows fuel items b i) -> incl batch items.
Proof.
  induction fuel as [|fuel IH]; intros i batch; simpl;
    destruct (i <? Z.of_nat (length items)); try contradiction.
  intros [<- | Hin]; [apply slice_incl | exact (IH _ _ Hin)].
Qed.

Lemma commits_are_batches (tr : list Event) (b : list string)
    (o : Outcome unit) :
  In (b, o) (commitsOf tr) -> In b (batchesOf tr).
Proof.
  induction tr as [|e tr IH]; simpl; [auto|].
  destruct e; simpl; auto.
  intros [Heq | Hin]; [left; congruence | right; auto].
Qed.

(** X14.  [handleDelete] never asks the store to delete an identifier that
    is not selected: whenever it returns, for any batch size, every
    identifier of every transaction it sent is a member of the selection.
    With B >= 1 and a selection without repeated members, no identifier is
    sent twice, neither within a transaction nor across transactions. *)
Theorem handleDelete_sends_only_selected {Store} (p : Props)
    (client : Client Store) (fuel : nat) (s : State) (w : Store) s' w' tr :
  handleDelete p client fuel s w = Some (s', w', tr) ->
  (forall batch result id,
      In (batch, result) (commitsOf tr) -> In id batch ->
      In id (selectedItems s)) /\
  (1 <= batchSize p -> (JsSet.size (selectedItems s) <= fuel)%nat ->
   NoDup (selectedItems s) ->
   NoDup (concat (map fst (commitsOf tr)))).
Proof.
  intros Hrun. split.
  - intros batch result id Hc Hid.
    apply commits_are_batches in Hc.
    rewrite (handleDelete_windows _ _ _ _ _ _ _ _ Hrun) in Hc.
    exact (windows_incl _ _ _ _ _ Hc id Hid).
  - intros HB Hfuel Hnd. unfold JsSet.size in Hfuel.
    destruct (selectedItems s) as [|x l] eqn:Hsel.
    + unfold handleDelete, JsSet.size in Hrun. rewrite Hsel in Hrun.
      injection Hrun as _ _ <-. constructor.
    + destruct (handleDelete_run p client fuel s w HB)
        as (r & new & Hseg & Hr);
        [congruence | rewrite Hsel; exact Hfuel |].
      rewrite Hr in Hrun. injection Hrun as _ _ <-.
      rewrite commitsOf_app, commitsOf_optionalCall, app_nil_r.
      destruct Hseg as (_ & Hcat & _ & _ & _ & Hmode).
      destruct (dryRun p).
      * destruct Hmode as (Hnew & _). rewrite Hnew, commitsOf_batches.
        constructor.
      * destruct Hmode as (_ & Hfst & _). rewrite <- Hfst, Hcat.
        cbn [Z.to_nat skipn]. rewrite Hsel. exact Hnd.
Qed.

Lemma handleDelete_sends_only_selected_witness :
  exists s' w' tr,
    handleDelete liveProps flakyClient 5 fiveSelected 0%nat
    = Some (s', w', tr) /\
    (forall batch result id,
        In (batch, result) (commitsOf tr) -> In id batch ->
        In id (selectedItems fiveSelected)) /\
    (1 <= batchSize liveProps ->
     (JsSet.size (selectedItems fiveSelected) <= 5)%nat ->
     NoDup (selectedItems fiveSelected) ->
     NoDup (concat (map fst (commitsOf tr)))).
Proof.
  eexists _, _, _. split; [vm_compute; reflexivity|].
  eapply (handleDelete_sends_only_selected liveProps flakyClient 5
            fiveSelected 0%nat).
  vm_compute. reflexivity.
Defined.

Lemma committed_plus_rejected (cs : list (list string * Outcome unit)) :
  (committedItems cs + rejectedItems cs)%nat
  = length (concat (map fst cs)).
Proof.
  induction cs as [|[b [u|e]] cs IH]; simpl; [reflexivity| |];
    rewrite length_app; lia.
Qed.

Lemma no_rejections (cs : list (list string * Outcome unit)) :
  forall k, rejections k cs = [] -> rejectedItems cs = 0%nat.
Proof.
  induction cs as [|[b [u|e]] cs IH]; intros k; simpl;
    [reflexivity | apply IH | discriminate].
Qed.

(** X15.  The accounts of a live run add up.  With [cs] the answers of the
    store to the batches of the run ([replay]): the deleted count plus the
    items of the transactions the store rejected is the size of the
    selection, so the count never exceeds it; the error list has one entry
    per transaction the store rejected; and when the error list is empty
    every selected item was deleted. *)
Theorem live_run_accounting {Store} (p : Props) (client : Client Store)
    (fuel : nat) (s : State) (w : Store) :
  dryRun p = false ->
  1 <= batchSize p ->
  selectedItems s <> [] ->
  (JsSet.size (selectedItems s) <= fuel)%nat ->
  exists s' w' cs deleted errs,
    handleDelete p client fuel s w
    = Some (s', w', map commitEvent cs
                    ++ optionalCall (onComplete p) (OnComplete deleted errs)) /\
    replay client w (map fst cs) = (cs, w') /\
    message s' = finalMessage p deleted errs /\
    (deleted + rejectedItems cs)%nat = JsSet.size (selectedItems s) /\
    (deleted <= JsSet.size (selectedItems s))%nat /\
    length errs = length (filter isRejected cs) /\
    (errs = [] -> deleted = JsSet.size (selectedItems s)).
Proof.
  intros Hlive HB Hne Hfuel. unfold JsSet.size in *.
  destruct (handleDelete_run p client fuel s w HB Hne Hfuel)
    as (r & new & Hseg & Hrun).
  destruct Hseg as (_ & Hcat & _ & _ & _ & Hmode).
  rewrite Hlive in Hmode. destruct Hmode as (Hnew & Hfst & Hdel & Herr).
  cbn [deletedCount errors app Nat.add] in Hdel, Herr.
  cbn [Z.to_nat skipn] in Hcat. rewrite Hfst in Hcat.
  pose proof (committed_plus_rejected (commitsOf new)) as Hsum.
  rewrite Hcat in Hsum.
  pose proof (handleDelete_replay p client fuel s w _ _ _ Hlive Hrun)
    as Hreplay.
  rewrite commitsOf_app, commitsOf_optionalCall, app_nil_r in Hreplay.
  rewrite Hrun.
  eexists _, (world r), (commitsOf new), (deletedCount r), (errors r).
  split; [rewrite <- Hnew; reflexivity|].
  split; [exact Hreplay|].
  split; [reflexivity|].
  rewrite Hdel, Herr.
  split; [exact Hsum|]. split; [lia|].
  split; [apply length_rejections|].
  intros Hnone. apply no_rejections in Hnone. lia.
Qed.

Lemma live_run_accounting_witness :
  dryRun liveProps = false /\
  1 <= batchSize liveProps /\
  selectedItems fiveSelected <> [] /\
  (JsSet.size (selectedItems fiveSelected) <= 5)%nat /\
  exists s' w' cs deleted errs,
    handleDelete liveProps flakyClient 5 fiveSelected 0%nat
    = Some (s', w', map commitEvent cs
                    ++ optionalCall (onComplete liveProps) (OnComplete deleted errs)) /\
    replay flakyClient 0%nat (map fst cs) = (cs, w') /\
    message s' = finalMessage liveProps deleted errs /\
    (deleted + rejectedItems cs)%nat = JsSet.size (selectedItems fiveSelected) /\
    (deleted <= JsSet.size (selectedItems fiveSelected))%nat /\
    length errs = length (filter isRejected cs) /\
    (errs = [] -> deleted = JsSet.size (selectedItems fiveSelected)).
Proof.
  split; [reflexivity|]. split; [simpl; lia|].
  split; [discriminate|]. split; [simpl; lia|].
  apply (live_run_accounting liveProps flakyClient 5 fiveSelected 0%nat);
    [reflexivity | simpl; lia | discriminate | simpl; lia].
Defined.

(** ** The tone of the status card *)

Lemma digitsOnly_uint (d : Decimal.uint) :
  digitsOnly (NilEmpty.string_of_uint d) = true.
Proof. induction d; simpl; auto. Qed.

Lemma digitsOnly_showNat (n : nat) : digitsOnly (Js.showNat n) = true.
Proof.
  unfold Js.showNat, Js.showZ. destruct n as [|n]; [reflexivity|].
  cbn [Z.of_nat Z.to_int NilZero.string_of_int].
  unfold NilZero.string_of_uint.
  destruct (Pos.to_uint (Pos.of_succ_nat n)) eqn:Hd;
    try reflexivity; rewrite <- Hd; apply digitsOnly_uint.
Qed.

Lemma includes_error_digits (ds t : string) :
  digitsOnly ds = true ->
  includes "error" (ds ++ t) = includes "error" t.
Proof.
  induction ds as [|c ds IH]; intros Hd; [reflexivity|].
  unfold digitsOnly in Hd. cbn [list_ascii_of_string forallb] in Hd.
  apply andb_true_iff in Hd. destruct Hd as [Hc Hds].
  cbn [String.append includes startsWith].
  destruct (Ascii.eqb_spec "e" c) as [<- | _]; [discriminate Hc|].
  cbn [andb orb]. apply IH. exact Hds.
Qed.

Lemma rejections_some (cs : list (list string * Outcome unit)) :
  forall k, (0 <? length (rejections k cs))%nat = existsb isRejected cs.
Proof.
  induction cs as [|[b [u|e]] cs IH]; intros k; simpl;
    [reflexivity | apply IH | reflexivity].
Qed.

Lemma finalMessage_tone (p : Props) (deleted : nat) (errs : list string) :
  Js.truthy (finalMessage p deleted errs) = true /\
  includes "error" (finalMessage p deleted errs)
  = negb (dryRun p) && (0 <? length errs)%nat.
Proof.
  unfold finalMessage. split; [destruct (dryRun p); reflexivity|].
  destruct (dryRun p); cbn [negb andb].
  - cbn. rewrite includes_error_digits by apply digitsOnly_showNat.
    reflexivity.
  - destruct (0 <? length errs)%nat.
    + cbn. rewrite includes_error_digits by apply digitsOnly_showNat.
      cbn. rewrite includes_error_digits by apply digitsOnly_showNat.
      reflexivity.
    + cbn. rewrite includes_error_digits by apply digitsOnly_showNat.
      reflexivity.
Qed.

(** X16.  After a delete run that got through its batches (B >= 1, a
    non-empty selection) the status card is shown.  After a preview it is
    positive.  After a live run it is critical exactly when the store
    rejected at least one of the transactions of the run ([replay] gives
    the answers of the store to the batches): a live run whose transactions
    the store all committed ends on a positive card. *)
Theorem delete_run_status_tone {Store} (p : Props) (client : Client Store)
    (fuel : nat) (s : State) (w : Store) :
  1 <= batchSize p ->
  selectedItems s <> [] ->
  (JsSet.size (selectedItems s) <= fuel)%nat ->
  exists s' w' tr,
    handleDelete p client fuel s w = Some (s', w', tr) /\
    (dryRun p = true -> commitsOf tr = [] /\ statusCard s' = Some positive) /\
    (dryRun p = false ->
     replay client w (batchesOf tr) = (commitsOf tr, w') /\
     statusCard s'
     = Some (if existsb isRejected (fst (replay client w (batchesOf tr)))
             then critical else positive)).
Proof.
  intros HB Hne Hfuel.
  destruct (handleDelete_run p client fuel s w HB Hne Hfuel)
    as (r & new & Hseg & Hrun).
  exists (mkState (searchQuery s) (selectedType s)
            (filter (fun item => negb (JsSet.has (selectedItems s) (_id item)))
                    (searchResults s))
            JsSet.empty (isSearching s) false false (availableTypes s)
            (customGroqQuery s) (useCustomQuery s)
            (finalMessage p (deletedCount r) (errors r))),
         (world r),
         (new ++ optionalCall (onComplete p)
                   (OnComplete (deletedCount r) (errors r))).
  split; [exact Hrun|].
  unfold statusCard. cbn [message].
  destruct (finalMessage_tone p (deletedCount r) (errors r)) as [-> ->].
  rewrite commitsOf_app, commitsOf_optionalCall, app_nil_r.
  rewrite batchesOf_app, batchesOf_optionalCall, app_nil_r.
  destruct Hseg as (_ & _ & _ & _ & _ & Hmode).
  split.
  - intros Hdry. rewrite Hdry in Hmode |- *. destruct Hmode as (Hnew & _).
    rewrite Hnew at 1. rewrite commitsOf_batches. split; reflexivity.
  - intros Hlive.
    pose proof (handleDelete_replay p client fuel s w _ _ _ Hlive Hrun)
      as Hreplay.
    rewrite commitsOf_app, commitsOf_optionalCall, app_nil_r in Hreplay.
    rewrite Hlive in Hmode |- *. destruct Hmode as (_ & Hfst & _ & Herr).
    cbn [errors app] in Herr.
    rewrite Hfst, Hreplay. split; [reflexivity|].
    cbn [negb andb fst]. rewrite Herr, rejections_some. reflexivity.
Qed.

Lemma delete_run_status_tone_witness :
  (1 <= batchSize liveProps /\
   selectedItems fiveSelected <> [] /\
   (JsSet.size (selectedItems fiveSelected) <= 5)%nat /\
   dryRun liveProps = false /\
   exists s' w' tr,
     handleDelete liveProps flakyClient 5 fiveSelected 0%nat
     = Some (s', w', tr) /\
     replay flakyClient 0%nat (batchesOf tr) = (commitsOf tr, w') /\
     existsb isRejected (fst (replay flakyClient 0%nat (batchesOf tr))) = true /\
     statusCard s' = Some critical) /\
  (1 <= batchSize previewProps /\
   dryRun previewProps = true /\
   exists s' w' tr,
     handleDelete previewProps flakyClient 5 fiveSelected 0%nat
     = Some (s', w', tr) /\
     commitsOf tr = [] /\
     statusCard s' = Some positive).
Proof.
  split.
  - split; [simpl; lia|]. split; [discriminate|]. split; [simpl; lia|].
    split; [reflexivity|].
    destruct (delete_run_status_tone liveProps flakyClient 5 fiveSelected
                0%nat) as (s' & w' & tr & Hrun & _ & Hlive);
      [simpl; lia | discriminate | simpl; lia |].
    destruct (Hlive eq_refl) as [Hreplay Htone].
    exists s', w', tr. split; [exact Hrun|]. split; [exact Hreplay|].
    assert (Hrej : existsb isRejected
                     (fst (replay flakyClient 0%nat (batchesOf tr))) = true).
    { clear Hreplay Htone Hlive. vm_compute in Hrun.
      injection Hrun as _ _ <-. reflexivity. }
    split; [exact Hrej|]. rewrite Htone, Hrej. reflexivity.
  - split; [simpl; lia|]. split; [reflexivity|].
    destruct (delete_run_status_tone previewProps flakyClient 5 fiveSelected
                0%nat) as (s' & w' & tr & Hrun & Hdry & _);
      [simpl; lia | discriminate | simpl; lia |].
    destruct (Hdry eq_refl) as [Hnone Htone].
    exists s', w', tr. split; [exact Hrun|]. split; assumption.
Defined.

(** The run over the sample store, whose second transaction is rejected,
    ends on a critical card; the same run in preview ends on a positive
    one. *)
Example sample_runs_status_tone :
  match handleDelete liveProps flakyClient 5 fiveSelected 0%nat,
        handleDelete previewProps flakyClient 5 fiveSelected 0%nat with
  | Some (s1, _, _), Some (s2, _, _) =>
      statusCard s1 = Some critical /\ statusCard s2 = Some positive
  | _, _ => False
  end.
Proof. vm_compute. split; reflexivity. Qed.

(** X17.  After a search the status card is never missing.  It is critical
    when the read was rejected, positive when the read resolved with an
    array of documents, and positive as well when the search was turned
    away for a blank term: the text of that message does not contain the
    word the card looks for. *)
Theorem search_status_tone {Store} (p : Props) (client : Client Store)
    (s : State) (w : Store) :
  (searchRejected s = true ->
   statusCard (fst (fst (handleSearch p client s w))) = Some positive) /\
  (searchRejected s = false ->
   forall e w',
     fetch client w (buildQuery p s) = (Rejected e, w') ->
     statusCard (fst (fst (handleSearch p client s w))) = Some critical) /\
  (searchRejected s = false ->
   forall docs w',
     fetch client w (buildQuery p s) = (Resolved (VArray docs), w') ->
     statusCard (fst (fst (handleSearch p client s w))) = Some positive).
Proof.
  unfold handleSearch. repeat split.
  - intros ->. reflexivity.
  - intros -> e w' ->. reflexivity.
  - intros -> docs w' ->. cbn [lengthText fst]. unfold statusCard.
    cbn [message setMessage setIsSearching].
    cbn. rewrite includes_error_digits by apply digitsOnly_showNat.
    reflexivity.
Qed.

Lemma search_status_tone_witness :
  (searchRejected blankSearch = true /\
   statusCard (fst (fst (handleSearch liveProps flakyClient blankSearch 0%nat)))
   = Some positive) /\
  (searchRejected fiveSelected = false /\
   fetch flakyClient 0%nat (buildQuery liveProps fiveSelected)
   = (Rejected (Js.ErrorObject "timeout"), 1%nat) /\
   statusCard (fst (fst (handleSearch liveProps flakyClient fiveSelected 0%nat)))
   = Some critical).
Proof.
  split.
  - split; [reflexivity|].
    apply (proj1 (search_status_tone liveProps flakyClient blankSearch 0%nat)).
    reflexivity.
  - split; [reflexivity|]. split; [reflexivity|].
    apply (proj1 (proj2 (search_status_tone liveProps flakyClient
                           fiveSelected 0%nat))
             ltac:(reflexivity) (Js.ErrorObject "timeout") 1%nat).
    reflexivity.
Defined.

(** ** Selecting everything, then deleting *)

Lemma filter_none {A} (f : A -> bool) (l : list A) :
  (forall x, In x l -> f x = false) -> filter f l = [].
Proof.
  induction l as [|x l IH]; intros Hall; simpl; [reflexivity|].
  rewrite (Hall x (or_introl eq_refl)). apply IH.
  intros y Hy. apply Hall. right. exact Hy.
Qed.

(** X18.  Select All followed by a delete run with B >= 1 leaves the
    result list empty and the selection empty, in preview mode as in live
    mode and whatever the store answered: the documents of a rejected
    transaction leave the list too. *)
Theorem selectAll_then_delete_clears_results {Store} (p : Props)
    (client : Client Store) (fuel : nat) (s : State) (w : Store) :
  1 <= batchSize p ->
  searchResults s <> [] ->
  (length (searchResults s) <= fuel)%nat ->
  exists s' w' tr,
    handleDelete p client fuel (selectAll s) w = Some (s', w', tr) /\
    searchResults s' = [] /\
    selectedItems s' = JsSet.empty /\
    concat (batchesOf tr) = JsSet.ofList (ids (searchResults s)).
Proof.
  intros HB Hne Hfuel.
  destruct (selectAll_selects_results_helper s) as (Hmem & Hall & Hsize).
  assert (Hsel : selectedItems (selectAll s) <> []).
  { destruct (searchResults s) as [|item rest] eqn:Hres; [congruence|].
    intros Hnil. specialize (Hall item (or_introl eq_refl)).
    rewrite Hnil in Hall. discriminate Hall. }
  destruct (handleDelete_run p client fuel (selectAll s) w HB Hsel)
    as (r & new & Hseg & Hrun); [unfold JsSet.size in Hsize; lia|].
  rewrite Hrun. eexists _, _, _. split; [reflexivity|].
  cbn [searchResults selectedItems].
  split; [|split; [reflexivity|]].
  - apply filter_none. intros item Hitem.
    change (searchResults (selectAll s)) with (searchResults s) in Hitem.
    rewrite (Hall item Hitem). reflexivity.
  - rewrite batchesOf_app, batchesOf_optionalCall, app_nil_r.
    destruct Hseg as (_ & Hcat & _). exact Hcat.
Qed.

Lemma selectAll_then_delete_clears_results_witness :
  1 <= batchSize liveProps /\
  searchResults fiveSelected <> [] /\
  (length (searchResults fiveSelected) <= 6)%nat /\
  exists s' w' tr,
    handleDelete liveProps flakyClient 6 (selectAll fiveSelected) 0%nat
    = Some (s', w', tr) /\
    searchResults s' = [] /\
    selectedItems s' = JsSet.empty /\
    concat (batchesOf tr) = JsSet.ofList (ids (searchResults fiveSelected)).
Proof.
  split; [simpl; lia|]. split; [discriminate|]. split; [simpl; lia|].
  apply (selectAll_then_delete_clears_results liveProps flakyClient 6
           fiveSelected 0%nat); [simpl; lia | discriminate | simpl; lia].
Defined.
